(** * go-arm-deployment: the [push] command and the VHD upload orchestration

    A shallow embedding of [main.go] and [push.go].  The program is a thin
    orchestration layer over the Go standard library, the Azure SDK and
    azure-vhd-utils.  Everything the repository does not own is a field of
    a [World]: a deterministic table of answers, one per external call.  The
    repository's own functions are written in a small monad that threads the
    package-level client variables and records every external call, with
    its answer, in a chronological trace. *)

From Stdlib Require Import ZArith String Ascii List Lia Sorted.
From Stdlib.Strings Require Import Byte.
From stdpp Require Import base option list strings gmap.

Local Open Scope Z_scope.
Local Open Scope string_scope.
Local Open Scope list_scope.

(** ** Go values *)

(** A Go [error] value, identified with the text [%v] prints for it. *)
Definition error := string.

(** A Go slice: [nil] is kept apart from an empty, non-nil slice because
    [setBlobMD5Hash] tests its argument against [nil]. *)
Inductive slice (A : Type) : Type :=
| nil_slice
| mk_slice (l : list A).
Arguments nil_slice {A}.
Arguments mk_slice {A} l.

Definition elems {A} (s : slice A) : list A :=
  match s with
  | nil_slice => []
  | mk_slice l => l
  end.


(** A Go [map[string]string]; [None] is the nil map. *)
Definition gomap : Type := option (gmap string string).

(** [make(map[string]string)] *)
Definition make_map : gomap := Some ∅.

(** Go's [int] and [int64] on a 64-bit target: two's complement wrap-around. *)
Definition int_wrap (z : Z) : Z := (z + 2 ^ 63) mod 2 ^ 64 - 2 ^ 63.
Definition int_mul (a b : Z) : Z := int_wrap (a * b).
Definition int_add (a b : Z) : Z := int_wrap (a + b).
Definition int_sub (a b : Z) : Z := int_wrap (a - b).

Definition newline : string := String (ascii_of_nat 10) EmptyString.

(** ** encoding/base64, [StdEncoding.EncodeToString] (RFC 4648, padded) *)
Module base64.

Definition encodeStd : string :=
  "ABCDEFGHIJKLMNOPQRSTUVWXYZabcdefghijklmnopqrstuvwxyz0123456789+/".

Definition padChar : ascii := "="%char.

(** The alphabet character of a 6-bit value. *)
Definition enc (v : Z) : ascii :=
  match String.get (Z.to_nat (Z.land v 63)) encodeStd with
  | Some c => c
  | None => padChar
  end.

Definition b2z (b : byte) : Z := Z.of_N (Byte.to_N b).

Fixpoint EncodeToString (src : list byte) : string :=
  match src with
  | [] => EmptyString
  | [b0] =>
      let val := Z.shiftl (b2z b0) 16 in
      String (enc (Z.shiftr val 18)) (String (enc (Z.shiftr val 12))
        (String padChar (String padChar EmptyString)))
  | [b0; b1] =>
      let val := Z.lor (Z.shiftl (b2z b0) 16) (Z.shiftl (b2z b1) 8) in
      String (enc (Z.shiftr val 18)) (String (enc (Z.shiftr val 12))
        (String (enc (Z.shiftr val 6)) (String padChar EmptyString)))
  | b0 :: b1 :: b2 :: rest =>
      let val := Z.lor (Z.lor (Z.shiftl (b2z b0) 16) (Z.shiftl (b2z b1) 8)) (b2z b2) in
      String (enc (Z.shiftr val 18)) (String (enc (Z.shiftr val 12))
        (String (enc (Z.shiftr val 6)) (String (enc val)
          (EncodeToString rest))))
  end.

End base64.

(** ** Values of the Azure SDK and of azure-vhd-utils *)

(** [adal.OAuthConfig] and [adal.ServicePrincipalToken], as far as the
    program looks into them: not at all. *)
Record OAuthConfig := { AuthorityEndpoint : string; TenantID : string }.
Record ServicePrincipalToken := { ClientID : string; Resource : string }.

(** [autorest.Authorizer]; [NoAuthorizer] is what a client holds before
    [initializeAzureClients] installs a bearer authorizer. *)
Inductive Authorizer :=
| NoAuthorizer
| BearerAuthorizer (token : ServicePrincipalToken).

(** [resources.GroupsClient] and [storage.AccountsClient]. *)
Record ManagementClient := { SubscriptionID : string; Authorizer_ : Authorizer }.
Definition GroupsClient := ManagementClient.
Definition AccountsClient := ManagementClient.
Definition NewGroupsClient (subscriptionID : string) : GroupsClient :=
  {| SubscriptionID := subscriptionID; Authorizer_ := NoAuthorizer |}.
Definition NewAccountsClient (subscriptionID : string) : AccountsClient :=
  {| SubscriptionID := subscriptionID; Authorizer_ := NoAuthorizer |}.
Definition set_Authorizer (c : ManagementClient) (a : Authorizer) : ManagementClient :=
  {| SubscriptionID := SubscriptionID c; Authorizer_ := a |}.

(** [storage.AccountKey] and [storage.AccountListKeysResult]: the SDK's
    fields are pointers, [None] is the nil pointer. *)
Record AccountKey := { KeyName : option string; Value : option string }.
Record AccountListKeysResult := { Keys : option (slice AccountKey) }.

(** The data-plane client ([simpleStorage.Client]) and its blob service. *)
Record Client := { accountName_ : string; accountKey_ : string }.
Record BlobStorageClient := { client : Client }.
Definition GetBlobService (c : Client) : BlobStorageClient := {| client := c |}.
Inductive ContainerAccessType :=
| ContainerAccessTypePrivate
| ContainerAccessTypeBlob
| ContainerAccessTypeContainer.
(** [simpleStorage.BlobHeaders]; the program sets [ContentMD5] and leaves
    every other header at its zero value. *)
Record BlobHeaders := { ContentMD5 : string }.

(** [diskstream.DiskStream]: an open image with its logical size. *)
Record DiskStream := { vhdPath : string; GetSize : Z }.

(** [common.IndexRange] and [common.TotalRangeLength], the sum of the
    lengths of the ranges (both ends inclusive). *)
Record IndexRange := { Start : Z; End_ : Z }.
Definition Length (r : IndexRange) : Z := int_add (int_sub (End_ r) (Start r)) 1.
Definition TotalRangeLength (ranges : slice IndexRange) : Z :=
  fold_left (fun length r => int_add length (Length r)) (elems ranges) 0.

(** [metadata.MetaData], with the one field the program reads.  The
    library's constructor always fills [FileMetaData], so the pointer is
    modelled by the record it points to. *)
Record FileMetaData := { MD5Hash : slice byte }.
Record MetaData := { FileMetaData_ : FileMetaData }.

(** [upload.DiskUploadContext], field by field. *)
Record DiskUploadContext := {
  VhdStream : DiskStream;
  UploadableRanges : slice IndexRange;
  AlreadyProcessedBytes : Z;
  BlobServiceClient : BlobStorageClient;
  ContainerName : string;
  BlobName : string;
  Parallelism : Z;
  Resume : bool;
  MD5Hash_ : slice byte
}.

(** What [FlagSet.Parse] found: the value of every flag that was set and the
    remaining arguments, or the error it reports together with the exit
    status [ExitOnError] uses for it (2; 0 for [-h] since Go 1.15). *)
Inductive ParseResult :=
| Parsed (actual : gmap string string) (rest : list string)
| ParseFailed (err : error) (status : Z).

(** ** Events: every external call, with its arguments and its answer *)
Inductive Event :=
| EvPrintf (format : string) (a : list string)
| EvFatalf (format : string) (a : list string)
| EvFlagParse (set : string) (arguments : list string) (r : ParseResult)
| EvPrintDefaults (set : string)
| EvUsage (set : string)
| EvGetenv (key value : string)
| EvNewOAuthConfig (endpoint tenantID : string) (r : option OAuthConfig) (err : option error)
| EvNewServicePrincipalToken (cfg : OAuthConfig) (clientID secret resource : string)
    (r : ServicePrincipalToken) (err : option error)
| EvListKeys (c : AccountsClient) (resourceGroupName accountName : string)
    (r : AccountListKeysResult) (err : option error)
| EvAbs (path : string) (r : string) (err : option error)
| EvValidateVhd (path : string) (err : option error)
| EvValidateVhdSize (path : string) (err : option error)
| EvCreateNewDiskStream (path : string) (r : DiskStream) (err : option error)
| EvClose (ds : DiskStream)
| EvNewBasicClient (accountName key : string) (r : Client) (err : option error)
| EvCreateContainerIfNotExists (c : BlobStorageClient) (container : string)
    (access : ContainerAccessType) (created : bool) (err : option error)
| EvNewMetaDataFromLocalVHD (path : string) (r : MetaData) (err : option error)
| EvPutPageBlob (c : BlobStorageClient) (container blob : string) (size : Z)
    (extraHeaders : gomap) (err : option error)
| EvSetBlobMetadata (c : BlobStorageClient) (container blob : string)
    (metadata extraHeaders : gomap) (err : option error)
| EvLocateUploadableRanges (ds : DiskStream) (rangesToSkip : slice IndexRange)
    (pageSize : Z) (r : slice IndexRange) (err : option error)
| EvDetectEmptyRanges (ds : DiskStream) (ranges : slice IndexRange)
    (r : slice IndexRange) (err : option error)
| EvUpload (cxt : DiskUploadContext) (err : option error)
| EvSetBlobProperties (c : BlobStorageClient) (container blob : string)
    (h : BlobHeaders) (err : option error).

(** ** The world: the answer of every collaborator to every call.

    No operation is called twice in one run of [uploadVMImage], so a table
    indexed by the arguments alone loses no run against a stateful service. *)
Record World := {
  os_Args : list string;
  os_LookupEnv : string -> option string;
  runtime_NumCPU : Z;
  filepath_Base : string -> string;
  filepath_Abs : string -> string * option error;
  flag_parse : string -> list (string * string) -> list string -> ParseResult;
  PublicCloud_ActiveDirectoryEndpoint : string;
  PublicCloud_ResourceManagerEndpoint : string;
  adal_NewOAuthConfig : string -> string -> option OAuthConfig * option error;
  adal_NewServicePrincipalToken :
    OAuthConfig -> string -> string -> string -> ServicePrincipalToken * option error;
  ListKeys : AccountsClient -> string -> string -> AccountListKeysResult * option error;
  validator_ValidateVhd : string -> option error;
  validator_ValidateVhdSize : string -> option error;
  diskstream_CreateNewDiskStream : string -> DiskStream * option error;
  NewBasicClient : string -> string -> Client * option error;
  CreateContainerIfNotExists :
    BlobStorageClient -> string -> ContainerAccessType -> bool * option error;
  NewMetaDataFromLocalVHD : string -> MetaData * option error;
  ToMap : MetaData -> gomap * option error;
  PutPageBlob : BlobStorageClient -> string -> string -> Z -> gomap -> option error;
  SetBlobMetadata : BlobStorageClient -> string -> string -> gomap -> gomap -> option error;
  LocateUploadableRanges :
    DiskStream -> slice IndexRange -> Z -> slice IndexRange * option error;
  DetectEmptyRanges : DiskStream -> slice IndexRange -> slice IndexRange * option error;
  Upload : DiskUploadContext -> option error;
  SetBlobProperties : BlobStorageClient -> string -> string -> BlobHeaders -> option error
}.

(** ** The monad of the program *)

(** The package-level variables of [push.go]. *)
Record Globals := {
  groupsClient : GroupsClient;
  simpleStorageClient : Client;
  accountsClient : AccountsClient
}.

(** Their zero values, as the Go runtime initialises them. *)
Definition zero_globals : Globals := {|
  groupsClient := {| SubscriptionID := ""; Authorizer_ := NoAuthorizer |};
  simpleStorageClient := {| accountName_ := ""; accountKey_ := "" |};
  accountsClient := {| SubscriptionID := ""; Authorizer_ := NoAuthorizer |}
|}.

Record State := { trace : list Event; globals : Globals }.

Definition init (g : Globals) : State := {| trace := []; globals := g |}.

(** How a computation ends: it returns, the process exits ([os.Exit],
    [log.Fatalf]), or a run-time panic unwinds the stack. *)
Inductive Outcome (A : Type) : Type :=
| Done (a : A)
| Exited (status : Z)
| Panicked (reason : string).
Arguments Done {A} a.
Arguments Exited {A} status.
Arguments Panicked {A} reason.

Definition M (A : Type) : Type := State -> State * Outcome A.

Global Instance M_ret : MRet M := fun A a s => (s, Done a).
Global Instance M_bind : MBind M := fun A B f m s =>
  match m s with
  | (s', Done a) => f a s'
  | (s', Exited status) => (s', Exited status)
  | (s', Panicked reason) => (s', Panicked reason)
  end.

(** Append one event to the trace. *)
Definition emit (e : Event) : M unit := fun s =>
  ({| trace := trace s ++ [e]; globals := globals s |}, Done tt).

(** An external call: ask the world, record call and answer. *)
Definition call {R : Type} (answer : R) (ev : R -> Event) : M R :=
  emit (ev answer) ;; mret answer.

Definition get_globals : M Globals := fun s => (s, Done (globals s)).
Definition put_globals (g : Globals) : M unit := fun s =>
  ({| trace := trace s; globals := g |}, Done tt).

Definition os_Exit {A} (status : Z) : M A := fun s => (s, Exited status).
Definition panic {A} (reason : string) : M A := fun s => (s, Panicked reason).

(** [fmt.Printf] *)
Definition fmt_Printf (format : string) (a : list string) : M unit :=
  emit (EvPrintf format a).

(** [log.Fatalf]: print, then [os.Exit(1)]. *)
Definition log_Fatalf {A} (format : string) (a : list string) : M A :=
  emit (EvFatalf format a) ;; os_Exit 1.

(** [if err != nil { log.Fatalf(format, err) }] *)
Definition fatal_on (err : option error) (format : string) : M unit :=
  match err with
  | Some e => log_Fatalf format [e]
  | None => mret tt
  end.

(** [*p]: a nil pointer dereference panics. *)
Definition deref {A} (p : option A) : M A :=
  match p with
  | Some a => mret a
  | None => panic "invalid memory address or nil pointer dereference"
  end.

(** [s[i]]: an index out of range panics. *)
Definition index {A} (s : slice A) (i : nat) : M A :=
  match elems s !! i with
  | Some a => mret a
  | None => panic "index out of range"
  end.

(** [defer d] in front of [body]: [d] runs when [body] returns and when it
    panics, not when the process exits under it. *)
Definition defer {A} (d : M unit) (body : M A) : M A := fun s =>
  match body s with
  | (s', Done a) =>
      match d s' with
      | (s'', Done _) => (s'', Done a)
      | (s'', Exited status) => (s'', Exited status)
      | (s'', Panicked reason) => (s'', Panicked reason)
      end
  | (s', Exited status) => (s', Exited status)
  | (s', Panicked reason) =>
      match d s' with
      | (s'', Exited status) => (s'', Exited status)
      | (s'', _) => (s'', Panicked reason)
      end
  end.

(** ** The [flag] package, as far as [main] and [push] drive it *)
Module flag.

Inductive ErrorHandling := ContinueOnError | ExitOnError | PanicOnError.

Record FlagSet := {
  name : string;
  errorHandling : ErrorHandling;
  Usage : M unit;
  formal : list (string * string)   (* flag name, default value *)
}.

(** A [*string] handed out by [FlagSet.String]. *)
Record StringVar := { flagName : string; defaultValue : string }.

(** The state of a flag set after [Parse]. *)
Record Parsed_ := { actual : gmap string string; Args : list string }.

(** The usage message of a flag set whose [Usage] was not replaced. *)
Definition defaultUsage (name : string) : M unit := emit (EvUsage name).

Definition NewFlagSet (name : string) (errorHandling : ErrorHandling) : FlagSet :=
  {| name := name; errorHandling := errorHandling;
     Usage := defaultUsage name; formal := [] |}.

Definition set_Usage (f : FlagSet) (usage : M unit) : FlagSet :=
  {| name := name f; errorHandling := errorHandling f;
     Usage := usage; formal := formal f |}.

Definition PrintDefaults (f : FlagSet) : M unit := emit (EvPrintDefaults (name f)).

(** [f.String(name, value, usage)] *)
Definition String_ (f : FlagSet) (name value usage : string) : FlagSet * StringVar :=
  ({| flag.name := flag.name f; errorHandling := errorHandling f;
      Usage := Usage f; formal := formal f ++ [(name, value)] |},
   {| flagName := name; defaultValue := value |}).

(** [*p] after [Parse]. *)
Definition load (st : Parsed_) (p : StringVar) : string :=
  default (defaultValue p) (actual st !! flagName p).

(** [f.Parse(arguments)]: on a failure the package prints the error and
    the usage text, then acts on the set's error handling. *)
Definition Parse (w : World) (f : FlagSet) (arguments : list string)
  : M (Parsed_ * option error) :=
  r ← call (flag_parse w (name f) (formal f) arguments) (EvFlagParse (name f) arguments);
  match r with
  | Parsed actual rest => mret ({| actual := actual; Args := rest |}, None)
  | ParseFailed err status =>
      Usage f ;;
      match errorHandling f with
      | ContinueOnError => mret ({| actual := ∅; Args := [] |}, Some err)
      | ExitOnError => os_Exit status
      | PanicOnError => panic err
      end
  end.

(** [flag.CommandLine]: the process-wide set, named after [os.Args[0]],
    with no flag defined by this program. *)
Definition CommandLine (w : World) : FlagSet :=
  NewFlagSet (hd "" (os_Args w)) ExitOnError.

End flag.

(** ** push.go *)

Definition defaultLocation : string := "westeurope".
Definition defaultAccountName : string := "linuxkit".
Definition defaultStorageContainerName : string := "linuxkitcontainer".
Definition defaultStorageBlobName : string := "linuxkitimage.vhd".

Section Push.

Variable w : World.

Definition defaultActiveDirectoryEndpoint : string := PublicCloud_ActiveDirectoryEndpoint w.
Definition defaultResourceManagerEndpoint : string := PublicCloud_ResourceManagerEndpoint w.

Definition initializeAzureClients (subscriptionID tenantID clientID clientSecret : string)
  : M unit :=
  '(oAuthConfig, err) ←
    call (adal_NewOAuthConfig w defaultActiveDirectoryEndpoint tenantID)
         (fun r => EvNewOAuthConfig defaultActiveDirectoryEndpoint tenantID r.1 r.2);
  fatal_on err "Cannot get oAuth configuration: %v" ;;
  cfg ← deref oAuthConfig;
  '(token, err) ←
    call (adal_NewServicePrincipalToken w cfg clientID clientSecret
            defaultResourceManagerEndpoint)
         (fun r => EvNewServicePrincipalToken cfg clientID clientSecret
                     defaultResourceManagerEndpoint r.1 r.2);
  fatal_on err "Cannot get service principal token: %v" ;;
  g ← get_globals;
  let g := {| groupsClient := NewGroupsClient subscriptionID;
              simpleStorageClient := simpleStorageClient g;
              accountsClient := accountsClient g |} in
  let g := {| groupsClient := set_Authorizer (groupsClient g) (BearerAuthorizer token);
              simpleStorageClient := simpleStorageClient g;
              accountsClient := accountsClient g |} in
  let g := {| groupsClient := groupsClient g;
              simpleStorageClient := simpleStorageClient g;
              accountsClient := NewAccountsClient subscriptionID |} in
  let g := {| groupsClient := groupsClient g;
              simpleStorageClient := simpleStorageClient g;
              accountsClient := set_Authorizer (accountsClient g) (BearerAuthorizer token) |} in
  put_globals g.

Definition os_Getenv (key : string) : M string :=
  call (default "" (os_LookupEnv w key)) (EvGetenv key).

Definition getEnvVarOrExit (varName : string) : M string :=
  value ← os_Getenv varName;
  (if String.eqb value "" then
     log_Fatalf ("Missing environment variable %s" +:+ newline) [varName]
   else mret tt) ;;
  mret value.

Definition ensureVHDSanity (localVHDPath : string) : M unit :=
  err ← call (validator_ValidateVhd w localVHDPath) (EvValidateVhd localVHDPath);
  fatal_on err "Unable to validate VHD: %v" ;;
  err ← call (validator_ValidateVhdSize w localVHDPath) (EvValidateVhdSize localVHDPath);
  fatal_on err "Unable to validate VHD size: %v".

Definition getLocalVHDMetaData (localVHDPath : string) : M MetaData :=
  '(localMetaData, err) ←
    call (NewMetaDataFromLocalVHD w localVHDPath)
         (fun r => EvNewMetaDataFromLocalVHD localVHDPath r.1 r.2);
  fatal_on err "Unable to get VHD metadata: %v" ;;
  mret localMetaData.

Definition setBlobMD5Hash (client : BlobStorageClient) (containerName blobName : string)
    (vhdMetaData : MetaData) : M unit :=
  match MD5Hash (FileMetaData_ vhdMetaData) with
  | mk_slice digest =>
      let blobHeaders := {| ContentMD5 := base64.EncodeToString digest |} in
      err ← call (SetBlobProperties w client containerName blobName blobHeaders)
                 (EvSetBlobProperties client containerName blobName blobHeaders);
      fatal_on err "Unable to set blob properties: %v"
  | nil_slice => mret tt
  end.

Definition uploadVMImage (resourceGroupName accountName imagePath : string) : M unit :=
  let PageBlobPageSize : Z := 2 * 1024 * 1024 in
  let parallelism := int_mul 8 (runtime_NumCPU w) in

  g ← get_globals;
  '(accountKeys, err) ←
    call (ListKeys w (accountsClient g) resourceGroupName accountName)
         (fun r => EvListKeys (accountsClient g) resourceGroupName accountName r.1 r.2);
  fatal_on err "Unable to retrieve storage account key: %v" ;;

  keys ← deref (Keys accountKeys);

  '(absolutePath, err) ←
    call (filepath_Abs w imagePath) (fun r => EvAbs imagePath r.1 r.2);
  fatal_on err "Unable to get absolute path: %v" ;;

  ensureVHDSanity absolutePath ;;

  '(diskStream, err) ←
    call (diskstream_CreateNewDiskStream w absolutePath)
         (fun r => EvCreateNewDiskStream absolutePath r.1 r.2);
  fatal_on err "Unable to create disk stream for VHD: %v" ;;
  defer (emit (EvClose diskStream)) (

  key0 ← index keys 0;
  key0Value ← deref (Value key0);
  '(c, err) ←
    call (NewBasicClient w accountName key0Value)
         (fun r => EvNewBasicClient accountName key0Value r.1 r.2);
  g ← get_globals;
  put_globals {| groupsClient := groupsClient g;
                 simpleStorageClient := c;
                 accountsClient := accountsClient g |} ;;
  fatal_on err "Unable to create simple storage client: %v" ;;

  g ← get_globals;
  let blobServiceClient := GetBlobService (simpleStorageClient g) in
  '(_, err) ←
    call (CreateContainerIfNotExists w blobServiceClient defaultStorageContainerName
            ContainerAccessTypePrivate)
         (fun r => EvCreateContainerIfNotExists blobServiceClient
                     defaultStorageContainerName ContainerAccessTypePrivate r.1 r.2);
  fatal_on err "Unable to create or retrieve container: %v" ;;

  localMetaData ← getLocalVHDMetaData absolutePath;

  err ← call (PutPageBlob w blobServiceClient defaultStorageContainerName
                defaultStorageBlobName (GetSize diskStream) None)
             (EvPutPageBlob blobServiceClient defaultStorageContainerName
                defaultStorageBlobName (GetSize diskStream) None);
  fatal_on err "Unable to create VHD blob: %v" ;;

  let '(m, _) := ToMap w localMetaData in
  err ← call (SetBlobMetadata w blobServiceClient defaultStorageContainerName
                defaultStorageBlobName m make_map)
             (EvSetBlobMetadata blobServiceClient defaultStorageContainerName
                defaultStorageBlobName m make_map);
  fatal_on err "Unable to set blob metatada: %v" ;;

  let rangesToSkip : slice IndexRange := nil_slice in
  '(uploadableRanges, err) ←
    call (LocateUploadableRanges w diskStream rangesToSkip PageBlobPageSize)
         (fun r => EvLocateUploadableRanges diskStream rangesToSkip PageBlobPageSize r.1 r.2);
  fatal_on err "Unable to locate uploadable ranges: %v" ;;

  '(uploadableRanges, err) ←
    call (DetectEmptyRanges w diskStream uploadableRanges)
         (fun r => EvDetectEmptyRanges diskStream uploadableRanges r.1 r.2);
  fatal_on err "Unable to detect empty blob ranges: %v" ;;

  let cxt := {|
    VhdStream := diskStream;
    UploadableRanges := uploadableRanges;
    AlreadyProcessedBytes := TotalRangeLength rangesToSkip;
    BlobServiceClient := blobServiceClient;
    ContainerName := defaultStorageContainerName;
    BlobName := defaultStorageBlobName;
    Parallelism := parallelism;
    Resume := false;
    MD5Hash_ := MD5Hash (FileMetaData_ localMetaData)
  |} in

  err ← call (Upload w cxt) (EvUpload cxt);
  fatal_on err "Unable to upload VHD: %v" ;;

  setBlobMD5Hash blobServiceClient defaultStorageContainerName defaultStorageBlobName
    localMetaData).

End Push.

(** ** The two [push] handlers of the repository *)

(** [push] as [src/push.go] has it. *)
Module PushGo.
Definition push (args : list string) : M unit :=
  fmt_Printf "pushing" [].
End PushGo.

(** [push] as the second copy of the file has it, with its flag set. *)
Module PushFlags.
Section WithWorld.
Variable w : World.

Definition push (args : list string) : M unit :=
  let flags := flag.NewFlagSet "push-azure" flag.ExitOnError in
  arg0 ← index (mk_slice (os_Args w)) 0;
  let invoked := filepath_Base w arg0 in

  let flags := flag.set_Usage flags (
    fmt_Printf ("USAGE: %s push [options] imagePath" +:+ newline +:+ newline) [invoked] ;;
    fmt_Printf ("'imagePath' specified the path (absolute or relative) of a" +:+ newline) [] ;;
    fmt_Printf ("VHD image to be pushed in an account storage" +:+ newline +:+ newline) [] ;;
    flag.PrintDefaults flags) in

  let '(flags, resourceGroupName) :=
    flag.String_ flags "resourceGroupName" ""
      "Name of the resource group where to upload the image" in
  let '(flags, location) :=
    flag.String_ flags "location" defaultLocation
      "Location of the storage account to upload the image" in
  let '(flags, accountName) :=
    flag.String_ flags "accountName" defaultAccountName
      "Name of the storage account" in

  '(parsed, err) ← flag.Parse w flags args;
  fatal_on err "Unable to parse args: %v" ;;

  fmt_Printf "Invoked with args: %s, %s, %s"
    [flag.load parsed resourceGroupName; flag.load parsed location;
     flag.load parsed accountName].
End WithWorld.
End PushFlags.

(** ** main.go *)
Section Main.

Variable w : World.
(** The two handlers [main] dispatches to; [run] is defined outside the
    files at hand. *)
Variable push : list string -> M unit.
Variable run : list string -> M unit.

Definition main : M unit :=
  '(parsed, _) ← flag.Parse w (flag.CommandLine w) (drop 1 (os_Args w));
  let args := flag.Args parsed in
  if (Z.of_nat (length args) <? 1)%Z then
    fmt_Printf ("Please specify a command!" +:+ newline +:+ newline) [] ;;
    flag.Usage (flag.CommandLine w) ;;
    os_Exit 1
  else
    arg0 ← index (mk_slice args) 0;
    if String.eqb arg0 "push" then push (drop 1 args)
    else if String.eqb arg0 "run" then run (drop 1 args)
    else
      fmt_Printf ("%q is not a valid command " +:+ newline +:+ newline) [arg0] ;;
      flag.Usage (flag.CommandLine w) ;;
      os_Exit 1.

End Main.

(** ** Running a computation *)

Definition exec {A} (m : M A) (g : Globals) : list Event * Outcome A :=
  let '(s, r) := m (init g) in (trace s, r).

Definition trace_of {A} (m : M A) (g : Globals) : list Event := (exec m g).1.
Definition outcome_of {A} (m : M A) (g : Globals) : Outcome A := (exec m g).2.

(** ** A sample world

    One machine with four processing units, one storage account with one
    key, and a 10 MiB image whose last 2 MiB page is empty.  The arguments
    select what the key listing, the structural validator and the metadata
    conversion answer. *)
Module Sample.

Definition MiB : Z := 1024 * 1024.

Definition md5 : list byte :=
  [xd4; x1d; x8c; xd9; x8f; x00; xb2; x04; xe9; x80; x09; x98; xec; xf8; x42; x7e].

Definition key1 : AccountKey := {| KeyName := Some "key1"; Value := Some "c2VjcmV0" |}.

Definition pages (n : nat) : list IndexRange :=
  map (fun i => {| Start := Z.of_nat i * (2 * MiB);
                   End_ := Z.of_nat (S i) * (2 * MiB) - 1 |}) (seq 0 n).

Definition parse (set : string) (formal : list (string * string)) (args : list string)
  : ParseResult :=
  if String.eqb set "push-azure" then
    match args with
    | [] => Parsed ∅ []
    | flag :: rest =>
        if String.eqb flag "-resourceGroupName" then
          match rest with
          | value :: rest' => Parsed {[ "resourceGroupName" := value ]} rest'
          | [] => ParseFailed "flag needs an argument: -resourceGroupName" 2
          end
        else if String.prefix "-" flag then
          ParseFailed "flag provided but not defined" 2
        else Parsed ∅ args
    end
  else Parsed ∅ args.

Definition world (keys : option (slice AccountKey)) (vhdErr : option error)
    (digest : slice byte) (toMap : gomap * option error) : World := {|
  os_Args := ["azure"; "push"; "-resourceGroupName"; "rg"; "disk.vhd"];
  os_LookupEnv := fun key =>
    if String.eqb key "AZURE_TENANT_ID" then Some "contoso"
    else if String.eqb key "AZURE_CLIENT_ID" then Some ""
    else None;
  runtime_NumCPU := 4;
  filepath_Base := fun p => p;
  filepath_Abs := fun p => ("/images/" +:+ p, None);
  flag_parse := parse;
  PublicCloud_ActiveDirectoryEndpoint := "https://login.microsoftonline.com/";
  PublicCloud_ResourceManagerEndpoint := "https://management.azure.com/";
  adal_NewOAuthConfig := fun endpoint tenant =>
    (Some {| AuthorityEndpoint := endpoint; TenantID := tenant |}, None);
  adal_NewServicePrincipalToken := fun _ clientID _ resource =>
    ({| ClientID := clientID; Resource := resource |}, None);
  ListKeys := fun _ _ _ => ({| Keys := keys |}, None);
  validator_ValidateVhd := fun _ => vhdErr;
  validator_ValidateVhdSize := fun _ => None;
  diskstream_CreateNewDiskStream := fun p => ({| vhdPath := p; GetSize := 10 * MiB |}, None);
  NewBasicClient := fun account key =>
    ({| accountName_ := account; accountKey_ := key |}, None);
  CreateContainerIfNotExists := fun _ _ _ => (true, None);
  NewMetaDataFromLocalVHD := fun _ =>
    ({| FileMetaData_ := {| MD5Hash := digest |} |}, None);
  ToMap := fun _ => toMap;
  PutPageBlob := fun _ _ _ _ _ => None;
  SetBlobMetadata := fun _ _ _ _ _ => None;
  LocateUploadableRanges := fun _ _ _ => (mk_slice (pages 5), None);
  DetectEmptyRanges := fun _ ranges => (mk_slice (take 4 (elems ranges)), None);
  Upload := fun _ => None;
  SetBlobProperties := fun _ _ _ _ => None
|}.

(** Everything answers and succeeds. *)
Definition good : World :=
  world (Some (mk_slice [key1])) None (mk_slice md5)
        (Some {[ "diskmetadata" := "{}" ]}, None).



(** The image is not a VHD. *)
Definition bad_vhd : World :=
  world (Some (mk_slice [key1])) (Some "invalid VHD footer") (mk_slice md5)
        (Some {[ "diskmetadata" := "{}" ]}, None).


(** No digest was computed for the image. *)
Definition no_digest : World :=
  world (Some (mk_slice [key1])) None nil_slice (Some {[ "diskmetadata" := "{}" ]}, None).

(** The metadata does not convert to a map. *)
Definition tomap_fails : World :=
  world (Some (mk_slice [key1])) None (mk_slice md5)
        (None, Some "json: unsupported value").

Definition blobService : BlobStorageClient :=
  {| client := {| accountName_ := "linuxkit"; accountKey_ := "c2VjcmV0" |} |}.

Definition stream : DiskStream := {| vhdPath := "/images/disk.vhd"; GetSize := 10 * MiB |}.

(** The upload context [uploadVMImage] builds in [good]. *)
Definition cxt : DiskUploadContext := {|
  VhdStream := stream;
  UploadableRanges := mk_slice (pages 4);
  AlreadyProcessedBytes := 0;
  BlobServiceClient := blobService;
  ContainerName := "linuxkitcontainer";
  BlobName := "linuxkitimage.vhd";
  Parallelism := 32;
  Resume := false;
  MD5Hash_ := mk_slice md5
|}.

(** The run of [uploadVMImage] in a world [w], from the zero globals. *)
Definition run (w : World) : list Event * Outcome unit :=
  exec (uploadVMImage w "rg" "linuxkit" "disk.vhd") zero_globals.

End Sample.

(** ** Classifying events *)

(** Calls on the storage data plane: the container, the blob, its pages. *)
Definition is_storage_call (e : Event) : bool :=
  match e with
  | EvCreateContainerIfNotExists _ _ _ _ _
  | EvPutPageBlob _ _ _ _ _ _
  | EvSetBlobMetadata _ _ _ _ _ _
  | EvUpload _ _
  | EvSetBlobProperties _ _ _ _ _ => true
  | _ => false
  end.

(** Calls that create a remote container or blob. *)
Definition creates_remote_resource (e : Event) : bool :=
  match e with
  | EvCreateContainerIfNotExists _ _ _ _ _
  | EvPutPageBlob _ _ _ _ _ _ => true
  | _ => false
  end.

(** Calls that go over the network: the key listing of the management
    plane and every call on the storage data plane. *)
Definition is_network_call (e : Event) : bool :=
  match e with
  | EvListKeys _ _ _ _ _ => true
  | _ => is_storage_call e
  end.

(** What a command-line front end does on its own: parse flags, print. *)
Definition cli_only (e : Event) : bool :=
  match e with
  | EvPrintf _ _
  | EvFatalf _ _
  | EvFlagParse _ _ _
  | EvPrintDefaults _
  | EvUsage _ => true
  | _ => false
  end.

Definition is_getenv (e : Event) : bool :=
  match e with
  | EvGetenv _ _ => true
  | _ => false
  end.

(** How many events of a trace satisfy a test. *)
Definition count (p : Event -> bool) (tr : list Event) : nat :=
  length (List.filter p tr).

Definition is_upload (e : Event) : bool :=
  match e with
  | EvUpload _ _ => true
  | _ => false
  end.

Definition is_put_page_blob (e : Event) : bool :=
  match e with
  | EvPutPageBlob _ _ _ _ _ _ => true
  | _ => false
  end.

Definition is_set_blob_properties (e : Event) : bool :=
  match e with
  | EvSetBlobProperties _ _ _ _ _ => true
  | _ => false
  end.

(** Both checks of [ensureVHDSanity] were made on one path and passed. *)
Definition validated (pre : list Event) : Prop :=
  exists p, In (EvValidateVhd p None) pre /\ In (EvValidateVhdSize p None) pre.

(** The ordering of section 4.3 as it is worded: in a run of
    [uploadVMImage], validation has passed before any network call. *)
Definition validation_precedes_every_network_call
    (w : World) (g : Globals) (resourceGroupName accountName imagePath : string) : Prop :=
  forall pre e post,
    trace_of (uploadVMImage w resourceGroupName accountName imagePath) g = pre ++ e :: post ->
    is_network_call e = true ->
    validated pre.


(** The world [w] with another answer of [MetaData.ToMap]. *)
Definition with_ToMap (w : World) (toMap : MetaData -> gomap * option error) : World := {|
  os_Args := os_Args w;
  os_LookupEnv := os_LookupEnv w;
  runtime_NumCPU := runtime_NumCPU w;
  filepath_Base := filepath_Base w;
  filepath_Abs := filepath_Abs w;
  flag_parse := flag_parse w;
  PublicCloud_ActiveDirectoryEndpoint := PublicCloud_ActiveDirectoryEndpoint w;
  PublicCloud_ResourceManagerEndpoint := PublicCloud_ResourceManagerEndpoint w;
  adal_NewOAuthConfig := adal_NewOAuthConfig w;
  adal_NewServicePrincipalToken := adal_NewServicePrincipalToken w;
  ListKeys := ListKeys w;
  validator_ValidateVhd := validator_ValidateVhd w;
  validator_ValidateVhdSize := validator_ValidateVhdSize w;
  diskstream_CreateNewDiskStream := diskstream_CreateNewDiskStream w;
  NewBasicClient := NewBasicClient w;
  CreateContainerIfNotExists := CreateContainerIfNotExists w;
  NewMetaDataFromLocalVHD := NewMetaDataFromLocalVHD w;
  ToMap := toMap;
  PutPageBlob := PutPageBlob w;
  SetBlobMetadata := SetBlobMetadata w;
  LocateUploadableRanges := LocateUploadableRanges w;
  DetectEmptyRanges := DetectEmptyRanges w;
  Upload := Upload w;
  SetBlobProperties := SetBlobProperties w
|}.

(** The flags [push] defines, with their defaults. *)
Definition push_formal : list (string * string) :=
  [("resourceGroupName", ""); ("location", defaultLocation);
   ("accountName", defaultAccountName)].


(** ** Further observations on events *)


(** The place of a call in the body of [uploadVMImage], in source order;
    the fatal message and the deferred [Close] come last. *)
Definition step (e : Event) : nat :=
  match e with
  | EvListKeys _ _ _ _ _ => 1
  | EvAbs _ _ _ => 2
  | EvValidateVhd _ _ => 3
  | EvValidateVhdSize _ _ => 4
  | EvCreateNewDiskStream _ _ _ => 5
  | EvNewBasicClient _ _ _ _ => 6
  | EvCreateContainerIfNotExists _ _ _ _ _ => 7
  | EvNewMetaDataFromLocalVHD _ _ _ => 8
  | EvPutPageBlob _ _ _ _ _ _ => 9
  | EvSetBlobMetadata _ _ _ _ _ _ => 10
  | EvLocateUploadableRanges _ _ _ _ _ => 11
  | EvDetectEmptyRanges _ _ _ _ => 12
  | EvUpload _ _ => 13
  | EvSetBlobProperties _ _ _ _ _ => 14
  | EvFatalf _ _ => 15
  | EvClose _ => 16
  | _ => 0
  end.

Definition is_close (e : Event) : bool :=
  match e with
  | EvClose _ => true
  | _ => false
  end.

Definition is_new_basic_client (e : Event) : bool :=
  match e with
  | EvNewBasicClient _ _ _ _ => true
  | _ => false
  end.

(** The local path an event reads the image from. *)
Definition image_path (e : Event) : option string :=
  match e with
  | EvValidateVhd p _
  | EvValidateVhdSize p _
  | EvCreateNewDiskStream p _ _
  | EvNewMetaDataFromLocalVHD p _ _ => Some p
  | _ => None
  end.

(** The blob service client, the container and the blob of a storage call. *)
Definition storage_target (e : Event) : option (BlobStorageClient * string * option string) :=
  match e with
  | EvCreateContainerIfNotExists c container _ _ _ => Some (c, container, None)
  | EvPutPageBlob c container blob _ _ _ => Some (c, container, Some blob)
  | EvSetBlobMetadata c container blob _ _ _ => Some (c, container, Some blob)
  | EvUpload cxt _ => Some (BlobServiceClient cxt, ContainerName cxt, Some (BlobName cxt))
  | EvSetBlobProperties c container blob _ _ => Some (c, container, Some blob)
  | _ => None
  end.

(** The package-level variables after a computation started in [g]. *)
Definition globals_after {A} (m : M A) (g : Globals) : Globals := globals (m (init g)).1.

(** The world [w] with another answer of [upload.Upload]. *)
Definition with_Upload (w : World) (upload : DiskUploadContext -> option error) : World := {|
  os_Args := os_Args w;
  os_LookupEnv := os_LookupEnv w;
  runtime_NumCPU := runtime_NumCPU w;
  filepath_Base := filepath_Base w;
  filepath_Abs := filepath_Abs w;
  flag_parse := flag_parse w;
  PublicCloud_ActiveDirectoryEndpoint := PublicCloud_ActiveDirectoryEndpoint w;
  PublicCloud_ResourceManagerEndpoint := PublicCloud_ResourceManagerEndpoint w;
  adal_NewOAuthConfig := adal_NewOAuthConfig w;
  adal_NewServicePrincipalToken := adal_NewServicePrincipalToken w;
  ListKeys := ListKeys w;
  validator_ValidateVhd := validator_ValidateVhd w;
  validator_ValidateVhdSize := validator_ValidateVhdSize w;
  diskstream_CreateNewDiskStream := diskstream_CreateNewDiskStream w;
  NewBasicClient := NewBasicClient w;
  CreateContainerIfNotExists := CreateContainerIfNotExists w;
  NewMetaDataFromLocalVHD := NewMetaDataFromLocalVHD w;
  ToMap := ToMap w;
  PutPageBlob := PutPageBlob w;
  SetBlobMetadata := SetBlobMetadata w;
  LocateUploadableRanges := LocateUploadableRanges w;
  DetectEmptyRanges := DetectEmptyRanges w;
  Upload := upload;
  SetBlobProperties := SetBlobProperties w
|}.

(** The world [w] with other command-line arguments. *)
Definition with_Args (w : World) (args : list string) : World := {|
  os_Args := args;
  os_LookupEnv := os_LookupEnv w;
  runtime_NumCPU := runtime_NumCPU w;
  filepath_Base := filepath_Base w;
  filepath_Abs := filepath_Abs w;
  flag_parse := flag_parse w;
  PublicCloud_ActiveDirectoryEndpoint := PublicCloud_ActiveDirectoryEndpoint w;
  PublicCloud_ResourceManagerEndpoint := PublicCloud_ResourceManagerEndpoint w;
  adal_NewOAuthConfig := adal_NewOAuthConfig w;
  adal_NewServicePrincipalToken := adal_NewServicePrincipalToken w;
  ListKeys := ListKeys w;
  validator_ValidateVhd := validator_ValidateVhd w;
  validator_ValidateVhdSize := validator_ValidateVhdSize w;
  diskstream_CreateNewDiskStream := diskstream_CreateNewDiskStream w;
  NewBasicClient := NewBasicClient w;
  CreateContainerIfNotExists := CreateContainerIfNotExists w;
  NewMetaDataFromLocalVHD := NewMetaDataFromLocalVHD w;
  ToMap := ToMap w;
  PutPageBlob := PutPageBlob w;
  SetBlobMetadata := SetBlobMetadata w;
  LocateUploadableRanges := LocateUploadableRanges w;
  DetectEmptyRanges := DetectEmptyRanges w;
  Upload := Upload w;
  SetBlobProperties := SetBlobProperties w
|}.

(** More sample worlds. *)
Module Sample2.

(** The transfer fails after the stream was opened. *)
Definition upload_fails : World :=
  with_Upload Sample.good (fun _ => Some "connection reset").

(** The first key comes without a value. *)
Definition nil_value : World :=
  Sample.world (Some (mk_slice [{| KeyName := Some "key1"; Value := None |}; Sample.key1]))
    None (mk_slice Sample.md5) (Some {[ "diskmetadata" := "{}" ]}, None).

(** Two keys are listed. *)
Definition two_keys : World :=
  Sample.world
    (Some (mk_slice [Sample.key1; {| KeyName := Some "key2"; Value := Some "b3RoZXI=" |}]))
    None (mk_slice Sample.md5) (Some {[ "diskmetadata" := "{}" ]}, None).

(** The clients [initializeAzureClients] installs in [Sample.good]. *)
Definition token : ServicePrincipalToken :=
  {| ClientID := "client"; Resource := "https://management.azure.com/" |}.
Definition managementClient : ManagementClient :=
  {| SubscriptionID := "sub"; Authorizer_ := BearerAuthorizer token |}.

End Sample2.

(** The state after some more events. *)
Definition emits (s : State) (evs : list Event) : State :=
  {| trace := trace s ++ evs; globals := globals s |}.

(** Every way of cutting a list at one of its elements. *)
Fixpoint splits {A} (l : list A) : list (list A * A * list A) :=
  match l with
  | [] => []
  | x :: l' => ([], x, l') :: map (fun '(pre, y, post) => (x :: pre, y, post)) (splits l')
  end.

(** * Proofs *)

Example base64_Man : base64.EncodeToString [x4d; x61; x6e] = "TWFu".
Proof. reflexivity. Qed.
Example base64_Ma : base64.EncodeToString [x4d; x61] = "TWE=".
Proof. reflexivity. Qed.
Example base64_M : base64.EncodeToString [x4d] = "TQ==".
Proof. reflexivity. Qed.
(** The MD5 digest of the empty input, as a [Content-MD5] header value. *)
Example base64_md5_empty :
  base64.EncodeToString
    [xd4; x1d; x8c; xd9; x8f; x00; xb2; x04; xe9; x80; x09; x98; xec; xf8; x42; x7e]
  = "1B2M2Y8AsgTpgAmY7PhCfg==".
Proof. reflexivity. Qed.

(** The sample run goes through all fifteen steps and returns. *)
Example sample_run_completes :
  (Sample.run Sample.good).2 = Done tt /\ length (Sample.run Sample.good).1 = 15%nat.
Proof. split; reflexivity. Qed.

Lemma splits_spec {A} (l pre post : list A) (e : A) :
  l = pre ++ e :: post -> In (pre, e, post) (splits l).
Proof.
  revert l. induction pre as [|x pre IH]; intros l ->; simpl.
  - now left.
  - right. apply in_map_iff. exists (pre, e, post). split; [reflexivity|].
    now apply IH.
Qed.


(** Unfold the monad and the helpers of [push.go] down to states. *)
Ltac unfold_monad :=
  unfold trace_of, outcome_of, exec, call, fatal_on, fmt_Printf, log_Fatalf, deref, index,
    defer, emit, os_Exit, panic, get_globals, put_globals, mbind, mret, M_bind, M_ret,
    emits in *.

(** Split on the next answer of the world that the goal inspects. *)
Ltac run_step :=
  match goal with
  | |- context [match ?x with _ => _ end] =>
      lazymatch x with
      | context [match _ with _ => _ end] => fail
      | _ => destruct x eqn:?
      end
  end.

Ltac run_all := cbn; repeat (run_step; cbn).

(** Traces that differ by the bracketing of their appends. *)
Ltac trace_eq := cbn; rewrite <- ?app_assoc; cbn; reflexivity.

(** Cut a trace of known shape at every position. *)
Ltac cut_trace H :=
  apply splits_spec in H; cbn in H;
  repeat (destruct H as [H|H]; [inversion H; subst; clear H|]); try contradiction.

(** ** Credential loader *)

(** C3: [getEnvVarOrExit] returns the value of a variable that is set and
    non-empty after reading it once; for a variable that is absent or empty
    it reads once, prints the "Missing environment variable" message naming
    the variable and exits with status 1.  In both cases it makes no
    network call and reads the environment exactly once (no retry). *)
Theorem getEnvVarOrExit_spec (w : World) (varName : string) (s : State) :
  (forall value : string,
      os_LookupEnv w varName = Some value -> value <> "" ->
      getEnvVarOrExit w varName s = (emits s [EvGetenv varName value], Done value)) /\
  (os_LookupEnv w varName = None \/ os_LookupEnv w varName = Some "" ->
   getEnvVarOrExit w varName s =
     (emits s [EvGetenv varName "";
               EvFatalf ("Missing environment variable %s" +:+ newline) [varName]],
      Exited 1)) /\
  (exists evs, trace (getEnvVarOrExit w varName s).1 = trace s ++ evs /\
               Forall (fun e => is_network_call e = false) evs /\
               count is_getenv evs = 1%nat).
Proof.
  split; [|split].
  - intros value Hv Hne.
    unfold getEnvVarOrExit, os_Getenv. rewrite Hv. unfold_monad. cbn.
    destruct (String.eqb value "") eqn:E.
    + apply String.eqb_eq in E. contradiction.
    + trace_eq.
  - intros Hv.
    unfold getEnvVarOrExit, os_Getenv.
    assert (default "" (os_LookupEnv w varName) = "") as -> by (destruct Hv as [-> | ->]; reflexivity).
    unfold_monad. trace_eq.
  - unfold getEnvVarOrExit, os_Getenv. unfold_monad. cbn.
    destruct (String.eqb _ "") eqn:E; cbn.
    + eexists. rewrite <- app_assoc. split; [reflexivity|]. cbn.
      split; [repeat constructor | reflexivity].
    + eexists. split; [reflexivity|]. cbn.
      split; [repeat constructor | reflexivity].
Qed.

Lemma getEnvVarOrExit_spec_witness :
  getEnvVarOrExit Sample.good "AZURE_TENANT_ID" (init zero_globals) =
    (emits (init zero_globals) [EvGetenv "AZURE_TENANT_ID" "contoso"], Done "contoso") /\
  getEnvVarOrExit Sample.good "AZURE_CLIENT_ID" (init zero_globals) =
    (emits (init zero_globals)
       [EvGetenv "AZURE_CLIENT_ID" "";
        EvFatalf ("Missing environment variable %s" +:+ newline) ["AZURE_CLIENT_ID"]],
     Exited 1) /\
  getEnvVarOrExit Sample.good "AZURE_CLIENT_SECRET" (init zero_globals) =
    (emits (init zero_globals)
       [EvGetenv "AZURE_CLIENT_SECRET" "";
        EvFatalf ("Missing environment variable %s" +:+ newline) ["AZURE_CLIENT_SECRET"]],
     Exited 1).
Proof.
  split; [|split].
  - apply (proj1 (getEnvVarOrExit_spec Sample.good "AZURE_TENANT_ID" (init zero_globals))).
    + reflexivity.
    + discriminate.
  - apply (proj1 (proj2 (getEnvVarOrExit_spec Sample.good "AZURE_CLIENT_ID" (init zero_globals)))).
    right. reflexivity.
  - apply (proj1 (proj2 (getEnvVarOrExit_spec Sample.good "AZURE_CLIENT_SECRET" (init zero_globals)))).
    left. reflexivity.
Defined.

(** ** The upload orchestration *)

(** Enumerate the runs of [uploadVMImage]: one per first failing step. *)
Ltac upload_paths :=
  unfold uploadVMImage, ensureVHDSanity, getLocalVHDMetaData, setBlobMD5Hash;
  unfold_monad; run_all.

(** X16: a run of [uploadVMImage] starts with the key listing, whatever the
    image: the management plane is called before the image is looked at. *)
Lemma uploadVMImage_starts_with_ListKeys (w : World) (g : Globals)
    (resourceGroupName accountName imagePath : string) :
  exists r err rest,
    trace_of (uploadVMImage w resourceGroupName accountName imagePath) g =
      EvListKeys (accountsClient g) resourceGroupName accountName r err :: rest /\
    ListKeys w (accountsClient g) resourceGroupName accountName = (r, err).
Proof.
  upload_paths; do 3 eexists; (split; reflexivity).
Qed.

(** C2, against the wording "before any network resource is touched": in a
    world where the image is not a VHD, the key listing has gone over the
    network before any validation. *)
Lemma validation_after_key_listing :
  ~ validation_precedes_every_network_call Sample.bad_vhd zero_globals
      "rg" "linuxkit" "disk.vhd".
Proof.
  intros H.
  destruct (H [] (EvListKeys (accountsClient zero_globals) "rg" "linuxkit"
                    {| Keys := Some (mk_slice [Sample.key1]) |} None)
              [EvAbs "disk.vhd" "/images/disk.vhd" None;
               EvValidateVhd "/images/disk.vhd" (Some "invalid VHD footer");
               EvFatalf "Unable to validate VHD: %v" ["invalid VHD footer"]]
              eq_refl eq_refl) as (p & [] & _).
Qed.

(** C2, as the code has it: in every run of [uploadVMImage] both validation
    checks, the structural one first, have passed before any call on the
    storage data plane, so before the container or the blob is created; if
    a check fails the run exits with status 1 without any such call; the
    one network call made before validation is the key listing, the first
    event of the run. *)
Theorem validation_precedes_storage (w : World) (g : Globals)
    (resourceGroupName accountName imagePath : string) :
  let tr := trace_of (uploadVMImage w resourceGroupName accountName imagePath) g in
  let out := outcome_of (uploadVMImage w resourceGroupName accountName imagePath) g in
  (forall pre e post,
      tr = pre ++ e :: post -> is_storage_call e = true ->
      exists p pre1 pre2,
        pre = pre1 ++ EvValidateVhd p None :: pre2 /\ In (EvValidateVhdSize p None) pre2) /\
  (forall p err,
      In (EvValidateVhd p (Some err)) tr \/ In (EvValidateVhdSize p (Some err)) tr ->
      out = Exited 1 /\
      Forall (fun e => is_storage_call e = false) tr /\
      Forall (fun e => creates_remote_resource e = false) tr) /\
  (forall pre e post,
      tr = pre ++ e :: post -> is_network_call e = true -> ~ validated pre ->
      pre = [] /\ exists r err,
        e = EvListKeys (accountsClient g) resourceGroupName accountName r err).
Proof.
  cbv zeta. split; [|split].
  - upload_paths; intros pre0 ev0 post0 H; cut_trace H; cbn; try discriminate; intros _;
      eexists; eexists (_ :: _ :: []); eexists;
      (split; [cbn; reflexivity | cbn; tauto]).
  - upload_paths; intros p0 err0 [H|H]; cbn in H;
      repeat (destruct H as [H|H]; [discriminate H || (inversion H; subst; clear H)|]);
      try contradiction;
      (split; [reflexivity | split; repeat constructor]).
  - upload_paths; intros pre0 ev0 post0 H; cut_trace H; cbn; try discriminate; intros _ Hv;
      try (split; [reflexivity | eauto]);
      exfalso; apply Hv; eexists; cbn; split; eauto 10.
Qed.

Lemma validation_precedes_storage_witness :
  (exists p pre1 pre2,
      firstn 8 (Sample.run Sample.good).1 = pre1 ++ EvValidateVhd p None :: pre2 /\
      In (EvValidateVhdSize p None) pre2) /\
  ((Sample.run Sample.bad_vhd).2 = Exited 1 /\
   Forall (fun e => is_storage_call e = false) (Sample.run Sample.bad_vhd).1 /\
   Forall (fun e => creates_remote_resource e = false) (Sample.run Sample.bad_vhd).1).
Proof.
  split.
  - apply (proj1 (validation_precedes_storage Sample.good zero_globals
                    "rg" "linuxkit" "disk.vhd")
             (firstn 8 (Sample.run Sample.good).1)
             (EvPutPageBlob Sample.blobService "linuxkitcontainer" "linuxkitimage.vhd"
                (10 * Sample.MiB) None None)
             (skipn 9 (Sample.run Sample.good).1)).
    + reflexivity.
    + reflexivity.
  - apply (proj1 (proj2 (validation_precedes_storage Sample.bad_vhd zero_globals
                           "rg" "linuxkit" "disk.vhd"))
             "/images/disk.vhd" "invalid VHD footer").
    left. vm_compute. tauto.
Defined.

(** ** Allocation, tagging and transfer *)

(** C4: in every run of [uploadVMImage] the page blob is created once, by a
    [PutPageBlob] whose size is [GetSize] of the disk stream opened earlier
    in the run, with no [Upload] before it and no other [PutPageBlob] in the
    run; and when [Upload] is called, that [PutPageBlob], for the size of
    the very stream handed to [Upload], has already succeeded. *)
Theorem blob_allocated_before_transfer (w : World) (g : Globals)
    (resourceGroupName accountName imagePath : string) :
  let tr := trace_of (uploadVMImage w resourceGroupName accountName imagePath) g in
  (forall pre c container blob size extra err post,
      tr = pre ++ EvPutPageBlob c container blob size extra err :: post ->
      (exists p diskStream,
          In (EvCreateNewDiskStream p diskStream None) pre /\ size = GetSize diskStream) /\
      container = defaultStorageContainerName /\ blob = defaultStorageBlobName /\
      Forall (fun e => is_upload e = false) pre /\
      Forall (fun e => is_put_page_blob e = false) (pre ++ post)) /\
  (forall pre cxt err post,
      tr = pre ++ EvUpload cxt err :: post ->
      In (EvPutPageBlob (BlobServiceClient cxt) defaultStorageContainerName
            defaultStorageBlobName (GetSize (VhdStream cxt)) None None) pre /\
      ContainerName cxt = defaultStorageContainerName /\
      BlobName cxt = defaultStorageBlobName) /\
  (count is_put_page_blob tr <= 1)%nat.
Proof.
  cbv zeta. split; [|split].
  - upload_paths; intros pre0 c0 ct0 bl0 size0 extra0 err0 post0 H; cut_trace H;
      (split; [do 2 eexists; cbn; split; [eauto 10 | reflexivity]|]);
      (split; [reflexivity|]); (split; [reflexivity|]);
      split; cbn; repeat constructor.
  - upload_paths; intros pre0 cxt0 err0 post0 H; cut_trace H; cbn; tauto.
  - upload_paths; unfold count; cbn; lia.
Qed.

Lemma blob_allocated_before_transfer_witness :
  In (EvPutPageBlob Sample.blobService defaultStorageContainerName defaultStorageBlobName
        (10 * Sample.MiB) None None)
     (firstn 12 (Sample.run Sample.good).1).
Proof.
  apply (proj1 (proj2 (blob_allocated_before_transfer Sample.good zero_globals
                         "rg" "linuxkit" "disk.vhd"))
           (firstn 12 (Sample.run Sample.good).1) Sample.cxt None
           (skipn 13 (Sample.run Sample.good).1)).
  reflexivity.
Defined.

(** C5: in every run of [uploadVMImage], when [Upload] is called the map
    that [ToMap] made of the image's metadata has already been written onto
    the same blob by a [SetBlobMetadata] that succeeded; and no
    [SetBlobMetadata] comes after an [Upload]. *)
Theorem metadata_written_before_transfer (w : World) (g : Globals)
    (resourceGroupName accountName imagePath : string) :
  let tr := trace_of (uploadVMImage w resourceGroupName accountName imagePath) g in
  (forall pre cxt err post,
      tr = pre ++ EvUpload cxt err :: post ->
      exists p localMetaData,
        In (EvNewMetaDataFromLocalVHD p localMetaData None) pre /\
        In (EvSetBlobMetadata (BlobServiceClient cxt) (ContainerName cxt) (BlobName cxt)
              (ToMap w localMetaData).1 make_map None) pre) /\
  (forall pre c container blob m extra err post,
      tr = pre ++ EvSetBlobMetadata c container blob m extra err :: post ->
      Forall (fun e => is_upload e = false) pre).
Proof.
  cbv zeta. split.
  - upload_paths; intros pre0 cxt0 err0 post0 H; cut_trace H; cbn;
      do 2 eexists; (split; [eauto 10|]);
      match goal with E : ToMap _ _ = _ |- _ => rewrite E end; cbn; tauto.
  - upload_paths; intros pre0 c0 ct0 bl0 m0 extra0 err0 post0 H; cut_trace H;
      cbn; repeat constructor.
Qed.

Lemma metadata_written_before_transfer_witness :
  exists p localMetaData,
    In (EvNewMetaDataFromLocalVHD p localMetaData None) (firstn 12 (Sample.run Sample.good).1) /\
    In (EvSetBlobMetadata Sample.blobService "linuxkitcontainer" "linuxkitimage.vhd"
          (ToMap Sample.good localMetaData).1 make_map None)
       (firstn 12 (Sample.run Sample.good).1).
Proof.
  apply (proj1 (metadata_written_before_transfer Sample.good zero_globals
                  "rg" "linuxkit" "disk.vhd")
           (firstn 12 (Sample.run Sample.good).1) Sample.cxt None
           (skipn 13 (Sample.run Sample.good).1)).
  reflexivity.
Defined.

(** ** Finalisation *)

(** C6: [setBlobMD5Hash] makes no call when the digest is nil; for a
    non-nil digest it makes exactly one [SetBlobProperties] call whose
    [ContentMD5] is the base64 text of the digest, returns when the call
    succeeds and prints a fatal message and exits with status 1 when it
    fails.  In a run of [uploadVMImage], a [SetBlobProperties] call only
    follows an [Upload] that returned no error, and after such an [Upload]
    the next event is that call when the context's digest is non-nil, while
    the run holds no [SetBlobProperties] call at all when it is nil. *)
Theorem setBlobMD5Hash_spec (w : World) :
  (forall client containerName blobName vhdMetaData s,
      MD5Hash (FileMetaData_ vhdMetaData) = nil_slice ->
      setBlobMD5Hash w client containerName blobName vhdMetaData s = (s, Done tt)) /\
  (forall client containerName blobName vhdMetaData s digest,
      MD5Hash (FileMetaData_ vhdMetaData) = mk_slice digest ->
      let blobHeaders := {| ContentMD5 := base64.EncodeToString digest |} in
      let err := SetBlobProperties w client containerName blobName blobHeaders in
      setBlobMD5Hash w client containerName blobName vhdMetaData s =
        match err with
        | None =>
            (emits s [EvSetBlobProperties client containerName blobName blobHeaders None],
             Done tt)
        | Some e =>
            (emits s [EvSetBlobProperties client containerName blobName blobHeaders (Some e);
                      EvFatalf "Unable to set blob properties: %v" [e]],
             Exited 1)
        end) /\
  (forall g resourceGroupName accountName imagePath,
      let tr := trace_of (uploadVMImage w resourceGroupName accountName imagePath) g in
      (forall pre c container blob h err post,
          tr = pre ++ EvSetBlobProperties c container blob h err :: post ->
          exists cxt digest,
            In (EvUpload cxt None) pre /\
            MD5Hash_ cxt = mk_slice digest /\
            h = {| ContentMD5 := base64.EncodeToString digest |} /\
            c = BlobServiceClient cxt /\ container = ContainerName cxt /\
            blob = BlobName cxt) /\
      (forall pre cxt post,
          tr = pre ++ EvUpload cxt None :: post ->
          match MD5Hash_ cxt with
          | mk_slice digest =>
              exists err post',
                post = EvSetBlobProperties (BlobServiceClient cxt) (ContainerName cxt)
                         (BlobName cxt) {| ContentMD5 := base64.EncodeToString digest |} err
                       :: post'
          | nil_slice => Forall (fun e => is_set_blob_properties e = false) tr
          end)).
Proof.
  split; [|split].
  - intros client containerName blobName vhdMetaData s H.
    unfold setBlobMD5Hash. rewrite H. reflexivity.
  - intros client containerName blobName vhdMetaData s digest H. cbv zeta.
    unfold setBlobMD5Hash. rewrite H. unfold_monad. cbn.
    destruct (SetBlobProperties w _ _ _ _); trace_eq.
  - intros g resourceGroupName accountName imagePath. cbv zeta. split.
    + upload_paths; intros pre0 c0 ct0 bl0 h0 err0 post0 H; cut_trace H;
        do 2 eexists; cbn; (split; [eauto 15|]);
        repeat split; reflexivity.
    + upload_paths; intros pre0 cxt0 post0 H; cut_trace H; cbn;
        first [ do 2 eexists; reflexivity | repeat constructor ].
Qed.

Lemma setBlobMD5Hash_spec_witness :
  setBlobMD5Hash Sample.no_digest Sample.blobService "linuxkitcontainer" "linuxkitimage.vhd"
    {| FileMetaData_ := {| MD5Hash := nil_slice |} |} (init zero_globals)
  = (init zero_globals, Done tt) /\
  setBlobMD5Hash Sample.good Sample.blobService "linuxkitcontainer" "linuxkitimage.vhd"
    {| FileMetaData_ := {| MD5Hash := mk_slice Sample.md5 |} |} (init zero_globals)
  = (emits (init zero_globals)
       [EvSetBlobProperties Sample.blobService "linuxkitcontainer" "linuxkitimage.vhd"
          {| ContentMD5 := "1B2M2Y8AsgTpgAmY7PhCfg==" |} None],
     Done tt) /\
  Forall (fun e => is_set_blob_properties e = false) (Sample.run Sample.no_digest).1.
Proof.
  split; [|split].
  - apply (proj1 (setBlobMD5Hash_spec Sample.no_digest)). reflexivity.
  - apply (proj1 (proj2 (setBlobMD5Hash_spec Sample.good))
             Sample.blobService "linuxkitcontainer" "linuxkitimage.vhd"
             {| FileMetaData_ := {| MD5Hash := mk_slice Sample.md5 |} |}
             (init zero_globals) Sample.md5).
    reflexivity.
  - apply (proj2 (proj2 (proj2 (setBlobMD5Hash_spec Sample.no_digest))
                    zero_globals "rg" "linuxkit" "disk.vhd")
             (firstn 12 (Sample.run Sample.no_digest).1)
             {| VhdStream := Sample.stream;
                UploadableRanges := mk_slice (Sample.pages 4);
                AlreadyProcessedBytes := 0;
                BlobServiceClient := Sample.blobService;
                ContainerName := "linuxkitcontainer";
                BlobName := "linuxkitimage.vhd";
                Parallelism := 32;
                Resume := false;
                MD5Hash_ := nil_slice |}
             (skipn 13 (Sample.run Sample.no_digest).1)).
    reflexivity.
Defined.

(** ** The upload context *)

(** C7: whatever the world, the state and the arguments, the context that
    [uploadVMImage] hands to [Upload] carries [8 * runtime.NumCPU()] as Go
    computes it on [int], which is eight times the number of processing
    units for every count a machine can report. *)
Theorem parallelism_is_8_per_cpu (w : World) (g : Globals)
    (resourceGroupName accountName imagePath : string)
    (pre : list Event) (cxt : DiskUploadContext) (err : option error) (post : list Event) :
  trace_of (uploadVMImage w resourceGroupName accountName imagePath) g
    = pre ++ EvUpload cxt err :: post ->
  Parallelism cxt = int_mul 8 (runtime_NumCPU w) /\
  (0 <= runtime_NumCPU w < 2 ^ 60 -> Parallelism cxt = 8 * runtime_NumCPU w).
Proof.
  assert (Hwrap : 0 <= runtime_NumCPU w < 2 ^ 60 ->
                  int_mul 8 (runtime_NumCPU w) = 8 * runtime_NumCPU w).
  { intros Hn. unfold int_mul, int_wrap.
    rewrite Z.mod_small by lia. lia. }
  revert pre cxt err post.
  upload_paths; intros pre0 cxt0 err0 post0 H; cut_trace H; cbn; split; auto.
Qed.

Lemma parallelism_is_8_per_cpu_witness :
  Parallelism Sample.cxt = int_mul 8 4 /\ Parallelism Sample.cxt = 8 * 4.
Proof.
  destruct (parallelism_is_8_per_cpu Sample.good zero_globals "rg" "linuxkit" "disk.vhd"
              (firstn 12 (Sample.run Sample.good).1) Sample.cxt None
              (skipn 13 (Sample.run Sample.good).1) eq_refl) as [H1 H2].
  split.
  - exact H1.
  - apply H2. cbn. lia.
Defined.

(** C10: every run of [uploadVMImage] is a fresh upload.  The ranges to
    skip handed to [LocateUploadableRanges] are the nil slice, the page size
    is 2 MiB, and the context handed to [Upload] has [Resume = false] and
    [AlreadyProcessedBytes = TotalRangeLength(nil) = 0]. *)
Theorem always_fresh_upload (w : World) (g : Globals)
    (resourceGroupName accountName imagePath : string) :
  let tr := trace_of (uploadVMImage w resourceGroupName accountName imagePath) g in
  (forall pre diskStream rangesToSkip pageSize r err post,
      tr = pre ++ EvLocateUploadableRanges diskStream rangesToSkip pageSize r err :: post ->
      rangesToSkip = nil_slice /\ pageSize = 2 * 1024 * 1024) /\
  (forall pre cxt err post,
      tr = pre ++ EvUpload cxt err :: post ->
      Resume cxt = false /\
      AlreadyProcessedBytes cxt = TotalRangeLength nil_slice /\
      AlreadyProcessedBytes cxt = 0 /\
      exists diskStream pageSize r,
        In (EvLocateUploadableRanges diskStream nil_slice pageSize r None) pre).
Proof.
  cbv zeta. split.
  - upload_paths; intros pre0 ds0 skip0 ps0 r0 err0 post0 H; cut_trace H;
      split; reflexivity.
  - upload_paths; intros pre0 cxt0 err0 post0 H; cut_trace H; cbn;
      repeat (split; [reflexivity|]); do 3 eexists; eauto 15.
Qed.

Lemma always_fresh_upload_witness :
  Resume Sample.cxt = false /\
  AlreadyProcessedBytes Sample.cxt = TotalRangeLength nil_slice /\
  AlreadyProcessedBytes Sample.cxt = 0 /\
  exists diskStream pageSize r,
    In (EvLocateUploadableRanges diskStream nil_slice pageSize r None)
       (firstn 12 (Sample.run Sample.good).1).
Proof.
  apply (proj2 (always_fresh_upload Sample.good zero_globals "rg" "linuxkit" "disk.vhd")
           (firstn 12 (Sample.run Sample.good).1) Sample.cxt None
           (skipn 13 (Sample.run Sample.good).1)).
  reflexivity.
Defined.

(** ** The key listing *)


(** Two answers recorded for one call are the same answer. *)
Ltac same_answer :=
  repeat match goal with
    | H : (_, _) = (_, _) |- _ => inversion H; subst; clear H
    | H : Some _ = Some _ |- _ => inversion H; subst; clear H
    | H : Some _ = None |- _ => discriminate H
    | H : None = Some _ |- _ => discriminate H
    | H1 : ?x = _, H2 : ?x = _ |- _ =>
        rewrite H1 in H2; inversion H2; subst; clear H2
    end.




(** ** The metadata map *)

(** C9: the error of [ToMap] plays no part in [uploadVMImage].  A world
    whose [ToMap] returns the same maps with any other errors, or none,
    gives the same events, the same outcome and the same final state; and
    the map [SetBlobMetadata] writes is the one [ToMap] returned for the
    metadata read earlier in the run, whether or not it came with an
    error. *)
Theorem ToMap_error_is_discarded (w : World) (g : Globals)
    (resourceGroupName accountName imagePath : string) :
  (forall err' : MetaData -> option error,
      uploadVMImage (with_ToMap w (fun md => ((ToMap w md).1, err' md)))
        resourceGroupName accountName imagePath (init g)
      = uploadVMImage w resourceGroupName accountName imagePath (init g)) /\
  (forall pre c container blob m extra err post,
      trace_of (uploadVMImage w resourceGroupName accountName imagePath) g
        = pre ++ EvSetBlobMetadata c container blob m extra err :: post ->
      exists p localMetaData,
        In (EvNewMetaDataFromLocalVHD p localMetaData None) pre /\
        m = (ToMap w localMetaData).1 /\ extra = make_map).
Proof.
  split.
  - intros err'.
    unfold uploadVMImage, ensureVHDSanity, getLocalVHDMetaData, setBlobMD5Hash.
    unfold_monad. unfold with_ToMap. run_all; cbn in *; same_answer; reflexivity.
  - upload_paths; intros pre0 c0 ct0 bl0 m0 extra0 err0 post0 H; cut_trace H; cbn;
      do 2 eexists; (split; [eauto 10|]);
      match goal with E : ToMap _ _ = _ |- _ => rewrite E end; split; reflexivity.
Qed.

Lemma ToMap_error_is_discarded_witness :
  (exists p localMetaData,
      In (EvNewMetaDataFromLocalVHD p localMetaData None)
         (firstn 9 (Sample.run Sample.tomap_fails).1) /\
      None = (ToMap Sample.tomap_fails localMetaData).1 /\ make_map = make_map) /\
  (ToMap Sample.tomap_fails {| FileMetaData_ := {| MD5Hash := mk_slice Sample.md5 |} |}).2
    = Some "json: unsupported value" /\
  (Sample.run Sample.tomap_fails).2 = Done tt /\
  In (EvUpload {| VhdStream := Sample.stream;
                  UploadableRanges := mk_slice (Sample.pages 4);
                  AlreadyProcessedBytes := 0;
                  BlobServiceClient := Sample.blobService;
                  ContainerName := "linuxkitcontainer";
                  BlobName := "linuxkitimage.vhd";
                  Parallelism := 32;
                  Resume := false;
                  MD5Hash_ := mk_slice Sample.md5 |} None)
     (Sample.run Sample.tomap_fails).1.
Proof.
  split; [|split; [|split]].
  - apply (proj2 (ToMap_error_is_discarded Sample.tomap_fails zero_globals
                    "rg" "linuxkit" "disk.vhd")
             (firstn 9 (Sample.run Sample.tomap_fails).1)
             Sample.blobService "linuxkitcontainer" "linuxkitimage.vhd" None make_map None
             (skipn 10 (Sample.run Sample.tomap_fails).1)).
    reflexivity.
  - reflexivity.
  - reflexivity.
  - vm_compute. tauto.
Defined.

(** ** The command line *)



(** * Further properties of the orchestration *)







(** X3: [uploadVMImage] can only panic on the listed keys.  A panic means
    that [ListKeys] returned no error and either a nil [Keys] pointer, an
    empty list, or a first key whose [Value] pointer is nil, and it strikes
    before any storage client is built or storage call made.  When the first
    listed key has a value the run never panics. *)
Theorem uploadVMImage_panics_only_on_keys (w : World) (g : Globals)
    (resourceGroupName accountName imagePath : string) :
  let tr := trace_of (uploadVMImage w resourceGroupName accountName imagePath) g in
  let out := outcome_of (uploadVMImage w resourceGroupName accountName imagePath) g in
  let listKeys := ListKeys w (accountsClient g) resourceGroupName accountName in
  (forall reason,
      out = Panicked reason ->
      Forall (fun e => is_storage_call e = false) tr /\
      Forall (fun e => is_new_basic_client e = false) tr /\
      exists r,
        listKeys = (r, None) /\
        (Keys r = None \/
         exists keys, Keys r = Some keys /\
           (elems keys = [] \/ exists k rest, elems keys = k :: rest /\ Value k = None))) /\
  (forall r err keys k rest v,
      listKeys = (r, err) -> Keys r = Some keys -> elems keys = k :: rest ->
      Value k = Some v ->
      forall reason, out <> Panicked reason).
Proof.
  cbv zeta. split.
  - upload_paths; intros reason0 H; try discriminate H;
      (split; [repeat constructor|]); (split; [repeat constructor|]);
      eexists; (split; [reflexivity|]); auto; right; eexists; (split; [eassumption|]);
      match goal with
      | E : elems ?s !! 0%nat = _ |- _ => destruct (elems s) as [|k0 rest0]; cbn in E
      end; same_answer; eauto.
  - intros r err keys k rest v HL HK He Hv reason0.
    upload_paths; same_answer; try discriminate; try congruence;
      match goal with
      | E : elems _ !! 0%nat = _ |- _ => rewrite He in E; cbn in E
      end; same_answer; congruence.
Qed.

Lemma uploadVMImage_panics_only_on_keys_witness :
  (exists r,
      ListKeys Sample2.nil_value (accountsClient zero_globals) "rg" "linuxkit" = (r, None) /\
      (Keys r = None \/
       exists keys, Keys r = Some keys /\
         (elems keys = [] \/ exists k rest, elems keys = k :: rest /\ Value k = None))) /\
  (Sample.run Sample.good).2 <> Panicked "index out of range".
Proof.
  split.
  - apply (proj1 (uploadVMImage_panics_only_on_keys Sample2.nil_value zero_globals
                    "rg" "linuxkit" "disk.vhd")
             "invalid memory address or nil pointer dereference").
    reflexivity.
  - apply (proj2 (uploadVMImage_panics_only_on_keys Sample.good zero_globals
                    "rg" "linuxkit" "disk.vhd")
             {| Keys := Some (mk_slice [Sample.key1]) |} None (mk_slice [Sample.key1])
             Sample.key1 [] "c2VjcmV0");
      reflexivity.
Defined.

(** X4: the deferred [Close].  Once the disk stream is open, a run that
    returns or panics ends with exactly one [Close] of that stream, and a run
    that exits on a fatal message never closes it; no stream is closed that
    was not opened in the run. *)
Theorem stream_closed_unless_exit (w : World) (g : Globals)
    (resourceGroupName accountName imagePath : string) :
  let tr := trace_of (uploadVMImage w resourceGroupName accountName imagePath) g in
  let out := outcome_of (uploadVMImage w resourceGroupName accountName imagePath) g in
  (forall pre p diskStream post,
      tr = pre ++ EvCreateNewDiskStream p diskStream None :: post ->
      (out = Exited 1 /\ count is_close tr = 0%nat) \/
      ((out = Done tt \/ exists reason, out = Panicked reason) /\
       last tr = Some (EvClose diskStream) /\ count is_close tr = 1%nat)) /\
  (forall diskStream,
      In (EvClose diskStream) tr ->
      exists p, In (EvCreateNewDiskStream p diskStream None) tr).
Proof.
  cbv zeta. split.
  - upload_paths; intros pre0 p0 ds0 post0 H; cut_trace H;
      first [ left; split; reflexivity
            | right; split; [eauto | split; reflexivity] ].
  - upload_paths; intros ds0 H; cbn in H;
      repeat (destruct H as [H|H]; [discriminate H || (inversion H; subst; clear H)|]);
      try contradiction; eexists; cbn; eauto 10.
Qed.

Lemma stream_closed_unless_exit_witness :
  ((Sample.run Sample2.upload_fails).2 = Exited 1 /\
   count is_close (Sample.run Sample2.upload_fails).1 = 0%nat) /\
  last (Sample.run Sample2.nil_value).1 = Some (EvClose Sample.stream).
Proof.
  split.
  - destruct (proj1 (stream_closed_unless_exit Sample2.upload_fails zero_globals
                       "rg" "linuxkit" "disk.vhd")
                (firstn 4 (Sample.run Sample2.upload_fails).1) "/images/disk.vhd"
                Sample.stream (skipn 5 (Sample.run Sample2.upload_fails).1) eq_refl)
      as [H | [[H | [reason H]] _]].
    + exact H.
    + discriminate H.
    + discriminate H.
  - destruct (proj1 (stream_closed_unless_exit Sample2.nil_value zero_globals
                       "rg" "linuxkit" "disk.vhd")
                (firstn 4 (Sample.run Sample2.nil_value).1) "/images/disk.vhd"
                Sample.stream (skipn 5 (Sample.run Sample2.nil_value).1) eq_refl)
      as [[H _] | (_ & H & _)].
    + discriminate H.
    + exact H.
Defined.

(** X5: the calls of [uploadVMImage] happen in the order of its source and
    each at most once: key listing, path resolution, structural and size
    validation, stream, storage client, container, metadata, blob, blob
    metadata, range location, empty-range detection, transfer, blob
    properties, then a fatal message or the deferred [Close].  Nothing is
    retried and nothing else is called. *)
Theorem uploadVMImage_steps_in_order (w : World) (g : Globals)
    (resourceGroupName accountName imagePath : string) :
  let tr := trace_of (uploadVMImage w resourceGroupName accountName imagePath) g in
  StronglySorted lt (map step tr) /\ Forall (fun e => (1 <= step e)%nat) tr.
Proof.
  cbv zeta. split.
  - upload_paths; repeat (constructor; [|repeat constructor; lia]); constructor.
  - upload_paths; repeat constructor; lia.
Qed.

(** X6: range planning feeds the transfer.  The ranges handed to [Upload]
    are the answer of [DetectEmptyRanges] to the answer of
    [LocateUploadableRanges], both taken on the stream that is uploaded, with
    nothing skipped and 2 MiB pages; both planning calls had succeeded, in
    that order, before the transfer started. *)
Theorem planned_ranges_are_uploaded (w : World) (g : Globals)
    (resourceGroupName accountName imagePath : string)
    (pre : list Event) (cxt : DiskUploadContext) (err : option error) (post : list Event) :
  trace_of (uploadVMImage w resourceGroupName accountName imagePath) g
    = pre ++ EvUpload cxt err :: post ->
  exists candidates pre1 pre2,
    pre = pre1 ++ EvLocateUploadableRanges (VhdStream cxt) nil_slice (2 * 1024 * 1024)
                    candidates None :: pre2 /\
    In (EvDetectEmptyRanges (VhdStream cxt) candidates (UploadableRanges cxt) None) pre2 /\
    LocateUploadableRanges w (VhdStream cxt) nil_slice (2 * 1024 * 1024) = (candidates, None) /\
    DetectEmptyRanges w (VhdStream cxt) candidates = (UploadableRanges cxt, None).
Proof.
  revert pre cxt err post.
  upload_paths; intros pre0 cxt0 err0 post0 H; cut_trace H; cbn;
    eexists; eexists (_ :: _ :: _ :: _ :: _ :: _ :: _ :: _ :: _ :: _ :: []); eexists;
    (split; [reflexivity|]); (split; [cbn; tauto|]);
    (split;
     [ match goal with E : LocateUploadableRanges _ _ _ _ = _ |- _ => exact E end
     | match goal with E : DetectEmptyRanges _ _ _ = _ |- _ => exact E end ]).
Qed.

Lemma planned_ranges_are_uploaded_witness :
  exists candidates pre1 pre2,
    firstn 12 (Sample.run Sample.good).1 =
      pre1 ++ EvLocateUploadableRanges Sample.stream nil_slice (2 * 1024 * 1024)
                candidates None :: pre2 /\
    In (EvDetectEmptyRanges Sample.stream candidates (mk_slice (Sample.pages 4)) None) pre2 /\
    LocateUploadableRanges Sample.good Sample.stream nil_slice (2 * 1024 * 1024)
      = (candidates, None) /\
    DetectEmptyRanges Sample.good Sample.stream candidates = (mk_slice (Sample.pages 4), None).
Proof.
  apply (planned_ranges_are_uploaded Sample.good zero_globals "rg" "linuxkit" "disk.vhd"
           (firstn 12 (Sample.run Sample.good).1) Sample.cxt None
           (skipn 13 (Sample.run Sample.good).1)).
  reflexivity.
Defined.

(** X7: one absolute path.  Validation, the disk stream and the metadata
    all read the image at the path [filepath.Abs] returned for the
    [imagePath] argument, never at the argument itself, and the stream handed
    to [Upload] is the one opened at that path. *)
Theorem image_read_at_absolute_path (w : World) (g : Globals)
    (resourceGroupName accountName imagePath : string) :
  let tr := trace_of (uploadVMImage w resourceGroupName accountName imagePath) g in
  (forall pre e post p,
      tr = pre ++ e :: post -> image_path e = Some p ->
      In (EvAbs imagePath p None) pre /\ filepath_Abs w imagePath = (p, None)) /\
  (forall pre cxt err post,
      tr = pre ++ EvUpload cxt err :: post ->
      exists p,
        In (EvAbs imagePath p None) pre /\
        In (EvCreateNewDiskStream p (VhdStream cxt) None) pre).
Proof.
  cbv zeta. split.
  - upload_paths; intros pre0 ev0 post0 p0 H; cut_trace H; cbn;
      intros Hp; try discriminate Hp; inversion Hp; subst;
      (split; [tauto | first [reflexivity | assumption]]).
  - upload_paths; intros pre0 cxt0 err0 post0 H; cut_trace H; cbn;
      eexists; split; eauto 10.
Qed.

Lemma image_read_at_absolute_path_witness :
  In (EvAbs "disk.vhd" "/images/disk.vhd" None) (firstn 4 (Sample.run Sample.good).1) /\
  filepath_Abs Sample.good "disk.vhd" = ("/images/disk.vhd", None).
Proof.
  apply (proj1 (image_read_at_absolute_path Sample.good zero_globals
                  "rg" "linuxkit" "disk.vhd")
           (firstn 4 (Sample.run Sample.good).1)
           (EvCreateNewDiskStream "/images/disk.vhd" Sample.stream None)
           (skipn 5 (Sample.run Sample.good).1) "/images/disk.vhd");
    reflexivity.
Defined.

(** X8: one destination, one key.  Every storage call of a run goes through
    the blob service of the one client that [NewBasicClient] built, without
    error, from the [accountName] argument and the value of the first listed
    key, and targets the container [linuxkitcontainer] and, for blob calls,
    the blob [linuxkitimage.vhd]: neither the image path nor the resource
    group nor any further key changes where the image lands. *)
Theorem storage_calls_share_destination (w : World) (g : Globals)
    (resourceGroupName accountName imagePath : string) :
  let tr := trace_of (uploadVMImage w resourceGroupName accountName imagePath) g in
  (forall pre e post c container blob,
      tr = pre ++ e :: post -> storage_target e = Some (c, container, blob) ->
      container = defaultStorageContainerName /\
      (blob = None \/ blob = Some defaultStorageBlobName) /\
      exists key storageClient,
        In (EvNewBasicClient accountName key storageClient None) pre /\
        c = GetBlobService storageClient) /\
  (forall pre account key storageClient err post,
      tr = pre ++ EvNewBasicClient account key storageClient err :: post ->
      account = accountName /\
      exists r keys k rest,
        In (EvListKeys (accountsClient g) resourceGroupName accountName r None) pre /\
        Keys r = Some keys /\ elems keys = k :: rest /\ Value k = Some key).
Proof.
  cbv zeta. split.
  - upload_paths; intros pre0 ev0 post0 c0 ct0 bl0 H; cut_trace H; cbn;
      intros Ht; try discriminate Ht; inversion Ht; subst;
      (split; [reflexivity|]); (split; [tauto|]); do 2 eexists; split; eauto 10.
  - upload_paths; intros pre0 acct0 key0 cl0 err0 post0 H; cut_trace H; cbn;
      (split; [reflexivity|]);
      match goal with
      | E : elems ?s !! 0%nat = Some _ |- _ =>
          destruct (elems s) as [|k0 rest0] eqn:Hel; cbn in E; [discriminate E|];
          inversion E; subst
      end;
      do 4 eexists; (split; [left; reflexivity|]); (split; [eassumption|]);
      split; eassumption.
Qed.

Lemma storage_calls_share_destination_witness :
  "linuxkit" = "linuxkit" /\
  exists r keys k rest,
    In (EvListKeys (accountsClient zero_globals) "rg" "linuxkit" r None)
       (firstn 5 (Sample.run Sample2.two_keys).1) /\
    Keys r = Some keys /\ elems keys = k :: rest /\ Value k = Some "c2VjcmV0".
Proof.
  apply (proj2 (storage_calls_share_destination Sample2.two_keys zero_globals
                  "rg" "linuxkit" "disk.vhd")
           (firstn 5 (Sample.run Sample2.two_keys).1) "linuxkit" "c2VjcmV0"
           {| accountName_ := "linuxkit"; accountKey_ := "c2VjcmV0" |} None
           (skipn 6 (Sample.run Sample2.two_keys).1)).
  reflexivity.
Defined.

(** X9: what [uploadVMImage] leaves in the package-level variables.  The
    two management clients are never written.  [simpleStorageClient] is
    written exactly when [NewBasicClient] is reached, with whatever client
    the call returned, also when the call failed and the run exits on it. *)
Theorem uploadVMImage_globals (w : World) (g : Globals)
    (resourceGroupName accountName imagePath : string) :
  let tr := trace_of (uploadVMImage w resourceGroupName accountName imagePath) g in
  let g' := globals_after (uploadVMImage w resourceGroupName accountName imagePath) g in
  groupsClient g' = groupsClient g /\
  accountsClient g' = accountsClient g /\
  (forall account key c err,
      In (EvNewBasicClient account key c err) tr -> simpleStorageClient g' = c) /\
  (count is_new_basic_client tr = 0%nat -> g' = g).
Proof.
  cbv zeta. unfold globals_after. repeat split.
  - upload_paths; reflexivity.
  - upload_paths; reflexivity.
  - upload_paths; intros acct0 key0 c0 err0 H; cbn in H;
      repeat (destruct H as [H|H]; [discriminate H || (inversion H; subst; clear H)|]);
      try contradiction; reflexivity.
  - upload_paths; unfold count; cbn; intros H; try discriminate H;
      destruct g; reflexivity.
Qed.

Lemma uploadVMImage_globals_witness :
  simpleStorageClient
    (globals_after (uploadVMImage Sample.good "rg" "linuxkit" "disk.vhd") zero_globals)
  = {| accountName_ := "linuxkit"; accountKey_ := "c2VjcmV0" |} /\
  globals_after (uploadVMImage Sample.bad_vhd "rg" "linuxkit" "disk.vhd") zero_globals
  = zero_globals.
Proof.
  split.
  - apply (proj1 (proj2 (proj2 (uploadVMImage_globals Sample.good zero_globals
                                  "rg" "linuxkit" "disk.vhd")))
             "linuxkit" "c2VjcmV0" _ None).
    vm_compute. tauto.
  - apply (proj2 (proj2 (proj2 (uploadVMImage_globals Sample.bad_vhd zero_globals
                                  "rg" "linuxkit" "disk.vhd")))).
    reflexivity.
Defined.

(** ** Client initialisation *)

(** X10: [initializeAzureClients] is all or nothing.  When the OAuth
    configuration and the service principal token are both obtained, the
    groups client and the accounts client are replaced by clients for the
    given subscription that carry the same bearer token, and the storage
    client is left alone; in every other case (a fatal message with exit
    status 1, or a nil configuration) no package-level variable is written.
    The token is asked for the resource manager endpoint. *)
Theorem initializeAzureClients_all_or_nothing (w : World)
    (subscriptionID tenantID clientID clientSecret : string) (s : State) :
  let r := initializeAzureClients w subscriptionID tenantID clientID clientSecret s in
  (forall cfg token,
      adal_NewOAuthConfig w (PublicCloud_ActiveDirectoryEndpoint w) tenantID
        = (Some cfg, None) ->
      adal_NewServicePrincipalToken w cfg clientID clientSecret
        (PublicCloud_ResourceManagerEndpoint w) = (token, None) ->
      r = ({| trace := trace s ++
                [EvNewOAuthConfig (PublicCloud_ActiveDirectoryEndpoint w) tenantID
                   (Some cfg) None;
                 EvNewServicePrincipalToken cfg clientID clientSecret
                   (PublicCloud_ResourceManagerEndpoint w) token None];
              globals :=
                {| groupsClient := {| SubscriptionID := subscriptionID;
                                      Authorizer_ := BearerAuthorizer token |};
                   simpleStorageClient := simpleStorageClient (globals s);
                   accountsClient := {| SubscriptionID := subscriptionID;
                                        Authorizer_ := BearerAuthorizer token |} |} |},
           Done tt)) /\
  (r.2 = Done tt ->
   exists token,
     groupsClient (globals r.1) =
       {| SubscriptionID := subscriptionID; Authorizer_ := BearerAuthorizer token |} /\
     accountsClient (globals r.1) = groupsClient (globals r.1) /\
     simpleStorageClient (globals r.1) = simpleStorageClient (globals s)) /\
  (r.2 <> Done tt -> globals r.1 = globals s) /\
  (forall status, r.2 = Exited status -> status = 1).
Proof.
  cbv zeta. unfold initializeAzureClients, defaultActiveDirectoryEndpoint,
    defaultResourceManagerEndpoint. unfold_monad. repeat split.
  - intros cfg token H1 H2. cbn. rewrite H1. cbn. rewrite H2. trace_eq.
  - run_all; intros H; try discriminate H; eexists; repeat split.
  - run_all; intros H; try reflexivity; contradiction.
  - run_all; intros status0 H; try discriminate H; congruence.
Qed.

Lemma initializeAzureClients_all_or_nothing_witness :
  initializeAzureClients Sample.good "sub" "contoso" "client" "secret" (init zero_globals)
  = ({| trace :=
          [EvNewOAuthConfig "https://login.microsoftonline.com/" "contoso"
             (Some {| AuthorityEndpoint := "https://login.microsoftonline.com/";
                      TenantID := "contoso" |}) None;
           EvNewServicePrincipalToken
             {| AuthorityEndpoint := "https://login.microsoftonline.com/";
                TenantID := "contoso" |}
             "client" "secret" "https://management.azure.com/" Sample2.token None];
        globals := {| groupsClient := Sample2.managementClient;
                      simpleStorageClient := simpleStorageClient zero_globals;
                      accountsClient := Sample2.managementClient |} |},
     Done tt).
Proof.
  apply (proj1 (initializeAzureClients_all_or_nothing Sample.good
                  "sub" "contoso" "client" "secret" (init zero_globals)));
    reflexivity.
Defined.

(** X11: [uploadVMImage] lists the keys through whatever the
    [accountsClient] variable holds on entry and never authenticates by
    itself.  Run after a successful [initializeAzureClients] in the same
    process, the key listing goes out with the subscription and the bearer
    token installed there; when the initialisation does not return,
    [uploadVMImage] does not start. *)
Theorem key_listing_uses_installed_client (w : World) (g : Globals)
    (subscriptionID tenantID clientID clientSecret : string)
    (resourceGroupName accountName imagePath : string) :
  let initialise := initializeAzureClients w subscriptionID tenantID clientID clientSecret in
  let upload := uploadVMImage w resourceGroupName accountName imagePath in
  (forall cfg token,
      adal_NewOAuthConfig w (PublicCloud_ActiveDirectoryEndpoint w) tenantID
        = (Some cfg, None) ->
      adal_NewServicePrincipalToken w cfg clientID clientSecret
        (PublicCloud_ResourceManagerEndpoint w) = (token, None) ->
      let installed := {| SubscriptionID := subscriptionID;
                          Authorizer_ := BearerAuthorizer token |} in
      exists r err rest,
        trace_of (initialise ;; upload) g =
          EvNewOAuthConfig (PublicCloud_ActiveDirectoryEndpoint w) tenantID (Some cfg) None
          :: EvNewServicePrincipalToken cfg clientID clientSecret
               (PublicCloud_ResourceManagerEndpoint w) token None
          :: EvListKeys installed resourceGroupName accountName r err :: rest /\
        ListKeys w installed resourceGroupName accountName = (r, err)) /\
  (outcome_of initialise g <> Done tt ->
   exec (initialise ;; upload) g = exec initialise g /\
   Forall (fun e => is_network_call e = false) (trace_of (initialise ;; upload) g)).
Proof.
  cbv zeta. split.
  - intros cfg token H1 H2.
    unfold initializeAzureClients, defaultActiveDirectoryEndpoint,
      defaultResourceManagerEndpoint.
    unfold uploadVMImage, ensureVHDSanity, getLocalVHDMetaData, setBlobMD5Hash.
    unfold_monad. cbn. rewrite H1. cbn. rewrite H2.
    run_all; do 3 eexists;
      (split; [reflexivity
              | match goal with E : ListKeys _ _ _ _ = _ |- _ => exact E end]).
  - unfold initializeAzureClients, defaultActiveDirectoryEndpoint,
      defaultResourceManagerEndpoint.
    unfold uploadVMImage, ensureVHDSanity, getLocalVHDMetaData, setBlobMD5Hash.
    unfold_monad. cbn.
    destruct (adal_NewOAuthConfig w _ tenantID) as [[cfg|] [e|]]; cbn;
      try (intros _; split; [reflexivity | repeat constructor]).
    destruct (adal_NewServicePrincipalToken w cfg _ _ _) as [token [e|]]; cbn;
      try (intros _; split; [reflexivity | repeat constructor]).
    intros H. contradiction.
Qed.

Lemma key_listing_uses_installed_client_witness :
  exists r err rest,
    trace_of (initializeAzureClients Sample.good "sub" "contoso" "client" "secret" ;;
              uploadVMImage Sample.good "rg" "linuxkit" "disk.vhd") zero_globals =
      EvNewOAuthConfig "https://login.microsoftonline.com/" "contoso"
        (Some {| AuthorityEndpoint := "https://login.microsoftonline.com/";
                 TenantID := "contoso" |}) None
      :: EvNewServicePrincipalToken
           {| AuthorityEndpoint := "https://login.microsoftonline.com/";
              TenantID := "contoso" |}
           "client" "secret" "https://management.azure.com/" Sample2.token None
      :: EvListKeys Sample2.managementClient "rg" "linuxkit" r err :: rest /\
    ListKeys Sample.good Sample2.managementClient "rg" "linuxkit" = (r, err).
Proof.
  apply (proj1 (key_listing_uses_installed_client Sample.good zero_globals
                  "sub" "contoso" "client" "secret" "rg" "linuxkit" "disk.vhd"));
    reflexivity.
Defined.

(** ** Command dispatch *)

(** What the flag-set [push] does to a state: flag-parsing and printing
    events only. *)
Lemma PushFlags_push_events (w : World) (args : list string) (s : State) :
  exists evs,
    (PushFlags.push w args s).1 = emits s evs /\ Forall (fun e => cli_only e = true) evs.
Proof.
  unfold PushFlags.push, flag.Parse, flag.String_, flag.set_Usage, flag.NewFlagSet,
    flag.PrintDefaults, flag.load. unfold_monad.
  destruct (os_Args w) as [|arg0 others]; cbn.
  - exists []. split; [|constructor]. cbn. destruct s. cbn. now rewrite app_nil_r.
  - destruct (flag_parse w "push-azure" _ args); cbn; rewrite <- ?app_assoc; cbn;
      eexists; (split; [reflexivity | repeat constructor]).
Qed.

(** X12: how [main] dispatches.  With no argument left after flag parsing
    it asks for a command, and with a first argument other than [push] and
    [run] (the comparison is exact) it names the invalid command; both print
    the usage and exit with status 1 without calling any handler.  [run] is
    handed the arguments after the command.  When the command line itself
    does not parse, the flag package prints the usage and exits with its
    own status. *)
Theorem main_dispatch (w : World) (push run : list string -> M unit) (g : Globals) :
  let prog := hd "" (os_Args w) in
  let r := flag_parse w prog [] (drop 1 (os_Args w)) in
  let parsed := EvFlagParse prog (drop 1 (os_Args w)) r in
  (forall actual,
      r = Parsed actual [] ->
      main w push run (init g) =
        ({| trace := [parsed;
                      EvPrintf ("Please specify a command!" +:+ newline +:+ newline) [];
                      EvUsage prog];
            globals := g |}, Exited 1)) /\
  (forall actual cmd rest,
      r = Parsed actual (cmd :: rest) -> cmd <> "push" -> cmd <> "run" ->
      main w push run (init g) =
        ({| trace := [parsed;
                      EvPrintf ("%q is not a valid command " +:+ newline +:+ newline) [cmd];
                      EvUsage prog];
            globals := g |}, Exited 1)) /\
  (forall actual rest,
      r = Parsed actual ("run" :: rest) ->
      main w push run (init g) = run rest {| trace := [parsed]; globals := g |}) /\
  (forall err status,
      r = ParseFailed err status ->
      main w push run (init g) =
        ({| trace := [parsed; EvUsage prog]; globals := g |}, Exited status)).
Proof.
  cbv zeta. unfold main, flag.Parse, flag.CommandLine, flag.NewFlagSet, flag.defaultUsage.
  unfold_monad. repeat split.
  - intros actual H. cbn. rewrite H. reflexivity.
  - intros actual cmd rest H Hpush Hrun.
    assert (Hlen : (Z.of_nat (length (cmd :: rest)) <? 1)%Z = false)
      by (apply Z.ltb_ge; cbn [length]; lia).
    apply String.eqb_neq in Hpush. apply String.eqb_neq in Hrun.
    cbn -[Z.ltb Z.of_nat length String.eqb]. rewrite H.
    cbn -[Z.ltb Z.of_nat length String.eqb]. rewrite Hlen, Hpush, Hrun. reflexivity.
  - intros actual rest H.
    assert (Hlen : (Z.of_nat (length ("run" :: rest)) <? 1)%Z = false)
      by (apply Z.ltb_ge; cbn [length]; lia).
    cbn -[Z.ltb Z.of_nat length]. rewrite H. cbn -[Z.ltb Z.of_nat length].
    rewrite Hlen. reflexivity.
  - intros err status H. cbn. rewrite H. reflexivity.
Qed.

Lemma main_dispatch_witness :
  (main (with_Args Sample.good ["azure"]) (PushFlags.push Sample.good) (fun _ => mret tt)
     (init zero_globals)).2 = Exited 1 /\
  main (with_Args Sample.good ["azure"; "Push"; "disk.vhd"]) (PushFlags.push Sample.good)
    (fun _ => mret tt) (init zero_globals) =
    ({| trace := [EvFlagParse "azure" ["Push"; "disk.vhd"] (Parsed ∅ ["Push"; "disk.vhd"]);
                  EvPrintf ("%q is not a valid command " +:+ newline +:+ newline) ["Push"];
                  EvUsage "azure"];
        globals := zero_globals |}, Exited 1).
Proof.
  split.
  - rewrite (proj1 (main_dispatch (with_Args Sample.good ["azure"])
                      (PushFlags.push Sample.good) (fun _ => mret tt) zero_globals)
               ∅ eq_refl).
    reflexivity.
  - apply (proj1 (proj2 (main_dispatch (with_Args Sample.good ["azure"; "Push"; "disk.vhd"])
                           (PushFlags.push Sample.good) (fun _ => mret tt) zero_globals))
             ∅ "Push" ["disk.vhd"] eq_refl); discriminate.
Defined.

(** X13: on every command line whose command is not [run], [main] with
    either [push] handler only parses flags and prints: no environment
    variable is read, no client is initialised, no file is validated and no
    call reaches the cloud, and the package-level variables keep their
    values. *)
Theorem main_is_cli_only_unless_run (w : World) (run : list string -> M unit)
    (g : Globals) (push : list string -> M unit) :
  (forall actual rest,
      flag_parse w (hd "" (os_Args w)) [] (drop 1 (os_Args w))
        <> Parsed actual ("run" :: rest)) ->
  push = PushGo.push \/ push = PushFlags.push w ->
  Forall (fun e => cli_only e = true) (trace (main w push run (init g)).1) /\
  globals (main w push run (init g)).1 = g.
Proof.
  intros Hrun Hpush.
  unfold main, flag.Parse, flag.CommandLine, flag.NewFlagSet, flag.defaultUsage.
  unfold_monad. cbn -[Z.ltb Z.of_nat length String.eqb].
  destruct (flag_parse w (hd "" (os_Args w)) [] (drop 1 (os_Args w)))
    as [actual [|cmd rest]|err status] eqn:Hparse;
    cbn -[Z.ltb Z.of_nat length String.eqb].
  - split; [repeat constructor | reflexivity].
  - assert (Hlen : (Z.of_nat (length (cmd :: rest)) <? 1)%Z = false)
      by (apply Z.ltb_ge; cbn [length]; lia).
    rewrite Hlen. destruct (String.eqb cmd "push") eqn:Ep.
    + destruct Hpush as [-> | ->].
      * cbn. split; [repeat constructor | reflexivity].
      * change (drop 0 rest) with rest.
        match goal with
        | |- context [PushFlags.push w rest ?s0] =>
            destruct (PushFlags_push_events w rest s0) as (evs & -> & Hevs)
        end.
        cbn. split; [|reflexivity].
        constructor; [reflexivity | exact Hevs].
    + destruct (String.eqb cmd "run") eqn:Er.
      * apply String.eqb_eq in Er. subst cmd. exfalso. exact (Hrun actual rest eq_refl).
      * cbn. split; [repeat constructor | reflexivity].
  - split; [repeat constructor | reflexivity].
Qed.

Lemma main_is_cli_only_unless_run_witness :
  Forall (fun e => cli_only e = true)
    (trace (main Sample.good (PushFlags.push Sample.good) (fun _ => mret tt)
              (init zero_globals)).1) /\
  globals (main Sample.good (PushFlags.push Sample.good) (fun _ => mret tt)
             (init zero_globals)).1 = zero_globals.
Proof.
  apply (main_is_cli_only_unless_run Sample.good (fun _ => mret tt) zero_globals
           (PushFlags.push Sample.good)).
  - intros actual rest H. vm_compute in H. discriminate H.
  - right. reflexivity.
Defined.

(** X14: [push] asks for nothing.  When the flags parse and none of the
    three was given, the handler falls back to an empty resource group name,
    the location [westeurope] and the account [linuxkit], prints them and
    returns, whatever is left of the command line: a missing resource group
    or a missing image path is not an error. *)
Theorem push_falls_back_to_defaults (w : World) (args : list string) (s : State)
    (arg0 : string) (others : list string) (actual : gmap string string)
    (rest : list string) :
  os_Args w = arg0 :: others ->
  flag_parse w "push-azure" push_formal args = Parsed actual rest ->
  actual !! "resourceGroupName" = None ->
  actual !! "location" = None ->
  actual !! "accountName" = None ->
  PushFlags.push w args s =
    (emits s [EvFlagParse "push-azure" args (Parsed actual rest);
              EvPrintf "Invoked with args: %s, %s, %s" [""; "westeurope"; "linuxkit"]],
     Done tt).
Proof.
  intros Hargs Hparse H1 H2 H3.
  unfold PushFlags.push, flag.Parse, flag.String_, flag.set_Usage, flag.NewFlagSet,
    flag.PrintDefaults, flag.load. unfold_monad. rewrite Hargs. cbn.
  change (flag_parse w "push-azure" _ args) with (flag_parse w "push-azure" push_formal args).
  rewrite Hparse. cbn. rewrite H1, H2, H3. trace_eq.
Qed.

Lemma push_falls_back_to_defaults_witness :
  PushFlags.push Sample.good [] (init zero_globals) =
    (emits (init zero_globals)
       [EvFlagParse "push-azure" [] (Parsed ∅ []);
        EvPrintf "Invoked with args: %s, %s, %s" [""; "westeurope"; "linuxkit"]],
     Done tt).
Proof.
  apply (push_falls_back_to_defaults Sample.good [] (init zero_globals) "azure"
           ["push"; "-resourceGroupName"; "rg"; "disk.vhd"] ∅ []);
    reflexivity.
Defined.

(** ** The checksum, end to end *)

(** X15: the checksum set on the blob is the local one.  Whenever
    [SetBlobProperties] is called, its [ContentMD5] is the base64 text of the
    digest in the metadata that [NewMetaDataFromLocalVHD] read, without
    error, from the image at its absolute path, and the same digest was
    handed to [Upload] in the context of the transfer that succeeded. *)
Theorem content_md5_is_local_digest (w : World) (g : Globals)
    (resourceGroupName accountName imagePath : string)
    (pre : list Event) (c : BlobStorageClient) (container blob : string)
    (h : BlobHeaders) (err : option error) (post : list Event) :
  trace_of (uploadVMImage w resourceGroupName accountName imagePath) g
    = pre ++ EvSetBlobProperties c container blob h err :: post ->
  exists p localMetaData digest cxt,
    In (EvAbs imagePath p None) pre /\
    In (EvNewMetaDataFromLocalVHD p localMetaData None) pre /\
    MD5Hash (FileMetaData_ localMetaData) = mk_slice digest /\
    ContentMD5 h = base64.EncodeToString digest /\
    In (EvUpload cxt None) pre /\ MD5Hash_ cxt = mk_slice digest.
Proof.
  revert pre c container blob h err post.
  upload_paths; intros pre0 c0 ct0 bl0 h0 err0 post0 H; cut_trace H; cbn;
    do 4 eexists; (split; [eauto 10|]); (split; [eauto 15|]);
    (split; [first [reflexivity | eassumption]|]); (split; [reflexivity|]);
    (split; [eauto 20 | reflexivity]).
Qed.

Lemma content_md5_is_local_digest_witness :
  exists p localMetaData digest cxt,
    In (EvAbs "disk.vhd" p None) (firstn 13 (Sample.run Sample.good).1) /\
    In (EvNewMetaDataFromLocalVHD p localMetaData None) (firstn 13 (Sample.run Sample.good).1) /\
    MD5Hash (FileMetaData_ localMetaData) = mk_slice digest /\
    "1B2M2Y8AsgTpgAmY7PhCfg==" = base64.EncodeToString digest /\
    In (EvUpload cxt None) (firstn 13 (Sample.run Sample.good).1) /\
    MD5Hash_ cxt = mk_slice digest.
Proof.
  apply (content_md5_is_local_digest Sample.good zero_globals "rg" "linuxkit" "disk.vhd"
           (firstn 13 (Sample.run Sample.good).1) Sample.blobService
           "linuxkitcontainer" "linuxkitimage.vhd"
           {| ContentMD5 := "1B2M2Y8AsgTpgAmY7PhCfg==" |} None
           (skipn 14 (Sample.run Sample.good).1)).
  reflexivity.
Defined.
